(** * bambam: the MEP hex-grid filter script

    A shallow embedding of [script/2025-05-22-mep.py] (the command line
    parser and [run], with its nested [hex_to_poly] and [in_bounds]) and
    of [polygon_for_hex_id] from [script/api_sketches.py].

    Python values are an inductive type, exceptions are a result type,
    the file system and the console are explicit state.  The behaviour
    of the third-party packages the script calls (shapely's WKT reader
    and containment predicate, h3's cell boundaries, pandas' CSV
    tokenizer and cell formatting) is left open: it is a record of
    operations, [Libraries], over which everything is quantified. *)

From Stdlib Require Import ZArith List Bool Lia PrimFloat.
From stdpp Require Import base option list gmap strings pretty.

Set Warnings "-register-all".

Open Scope string_scope.
Open Scope list_scope.
Open Scope Z_scope.

(** ** Exceptions and results *)

Inductive exn : Type :=
| SystemExit (code : Z)
| AttributeError (obj attr : string)
| TypeError (msg : string)
| ValueError (msg : string)
| FileNotFoundError (path : string)
| KeyError (key : string)
| OSError (msg : string)
| LibraryError (package msg : string).

Inductive result (A : Type) : Type :=
| Ok (a : A)
| Raise (e : exn).
Arguments Ok {A} a.
Arguments Raise {A} e.

#[global] Instance result_ret : MRet result := fun _ a => Ok a.
#[global] Instance result_bind : MBind result := fun _ _ f m =>
  match m with
  | Ok a => f a
  | Raise e => Raise e
  end.

(** [Series.apply]: the function is called on the values from first to
    last, the first exception ends the call. *)
Fixpoint Series_apply {A B : Type} (f : A -> result B) (l : list A) : result (list B) :=
  match l with
  | [] => Ok []
  | x :: l' => y ← f x; ys ← Series_apply f l'; Ok (y :: ys)
  end.

(** ** Python values *)

(** A coordinate pair of binary64 floats, as h3 and shapely hold them. *)
Definition coordinate : Type := float * float.

(** [shapely.geometry.Polygon]: the closed exterior ring (the script
    builds no holes). *)
Record Polygon : Type := { exterior : list coordinate }.

(** The values that occur in a data frame cell or as an argument of the
    nested functions.  [VRow] is a row of a frame (column names and the
    row's cells), what [DataFrame.apply(..., axis=1)] hands to its
    function. *)
Inductive pyval : Type :=
| VNone
| VStr (s : string)
| VInt (z : Z)
| VFloat (f : float)
| VBool (b : bool)
| VPoly (p : Polygon)
| VRow (names : list string) (cells : list pyval).

(** [pandas.Series] and [pandas.DataFrame]: row labels and, per column,
    its name and values. *)
Record Series : Type := { s_index : list Z; s_values : list pyval }.

Record DataFrame : Type :=
  { df_index : list Z; df_columns : list (string * list pyval) }.

(** The value of an attribute of the [argparse.Namespace]. *)
Inductive argval : Type :=
| AStr (s : string)
| AInt (z : Z).

(** ** The third-party operations *)

Class Libraries : Type := {
  (** a shapely geometry read from well-known text (the boundary) *)
  geometry : Type;
  (** [shapely.wkt.loads] *)
  wkt_loads : string -> result geometry;
  (** [geometry.contains(polygon)] *)
  contains : geometry -> Polygon -> bool;
  (** [geometry.contains(value)] for a value that is no polygon built
      here: [None], a geometry of another kind, anything else *)
  contains_value : geometry -> pyval -> result bool;
  (** [h3.cell_to_boundary] (h3 4.x): the vertices as (lat, lng) *)
  cell_to_boundary : pyval -> result (list coordinate);
  (** [h3.h3_to_geo_boundary] (h3 3.x), the same vertices *)
  h3_to_geo_boundary : pyval -> result (list coordinate);
  (** [Polygon(shell)] for a shell of one, two or three coordinates,
      which shapely refuses or pads *)
  Polygon_short : list coordinate -> result Polygon;
  (** pandas' CSV reader: the header, read when the reader is built, and
      the records, each read (or found malformed) when its chunk is *)
  csv_parse : string -> result (list string * list (result (list pyval)));
  (** [DataFrame.__getitem__] with a key that is not a boolean mask *)
  getitem_labels : DataFrame -> Series -> result DataFrame;
  (** the text [to_csv] writes for one cell *)
  render_cell : pyval -> string;
  (** argparse on a command line that has a token starting with '-':
      the positional values that remain, or the exit *)
  argparse_options : list string -> result (list string)
}.

(** ** Polygons *)

(** (lat, lng) to (lng, lat). *)
Definition swap_latlng (t : coordinate) : coordinate := (snd t, fst t).

(** Equality of two coordinate pairs, as IEEE comparison of the floats. *)
Definition coord_eqb (p q : coordinate) : bool :=
  PrimFloat.eqb (fst p) (fst q) && PrimFloat.eqb (snd p) (snd q).

(** Closing a ring: the first coordinate is appended when the last one
    differs from it. *)
Definition close_ring (l : list coordinate) : list coordinate :=
  match l with
  | [] => []
  | p :: _ => if coord_eqb p (List.last l p) then l else l ++ [p]
  end.

(** ** The world: files and what the run shows and touches *)

(** The attributes of an [argparse.Namespace], in the order they were
    set. *)
Definition Namespace : Type := list (string * argval).

Inductive event : Type :=
| PrintBanner                      (* line 23 *)
| PrintArgs (args : Namespace)     (* line 24, the JSON dump *)
| OpenRead (path : string)         (* a file opened for reading *)
| ReadChunk (rows : nat)           (* a chunk pulled from the CSV reader *)
| PrintFinished (rows : nat)       (* line 41 *)
| WriteFile (path : string).       (* a file created or replaced *)

Record world : Type :=
  { files : gmap string string; trace : list event }.

(** Computations of the script: they read and change the world and end
    in a value or in an exception. *)
Definition M (A : Type) : Type := world -> result A * world.

#[global] Instance M_ret : MRet M := fun _ a w => (Ok a, w).
#[global] Instance M_bind : MBind M := fun _ _ f m w =>
  match m w with
  | (Ok a, w') => f a w'
  | (Raise e, w') => (Raise e, w')
  end.

Definition lift {A : Type} (r : result A) : M A := fun w => (r, w).

Definition emit (e : event) : M unit := fun w =>
  (Ok tt, {| files := files w; trace := trace w ++ [e] |}).

Definition read_file (p : string) : M string := fun w =>
  match files w !! p with
  | Some text => (Ok text, w)
  | None => (Raise (FileNotFoundError p), w)
  end.

(** [open(path).read()]: an integer would name a file descriptor, and
    the script holds none. *)
Definition open_read (path : argval) : M string :=
  match path with
  | AStr p => _ ← emit (OpenRead p); read_file p
  | AInt _ => lift (Raise (OSError "Bad file descriptor"))
  end.

Definition write_file (p text : string) : M unit := fun w =>
  (Ok tt, {| files := <[p := text]> (files w); trace := trace w ++ [WriteFile p] |}).

(** ** argparse *)

(** A positional argument as [add_argument(dest, default=...)] declares
    it; none is given [nargs] or [type]. *)
Record Argument : Type := { dest : string; default : option argval }.

Definition add_argument (name : string) (dflt : option argval)
    (parser : list Argument) : list Argument :=
  parser ++ [{| dest := name; default := dflt |}].

(** Lines 9-13. *)
Definition parser : list Argument :=
  let parser := [] in
  let parser := add_argument "wkt-boundary-file" None parser in
  let parser := add_argument "mep-matrix-file" None parser in
  let parser := add_argument "output_file" None parser in
  let parser := add_argument "chunksize" (Some (AInt 500000)) parser in
  parser.

(** Lines 15-18, the names bound at module level; [run] reads its
    arguments from the namespace and none of these. *)
Module Globals.
Definition wkt_boundary_file : string := "".
Definition mep_matrix_file : string := "".
Definition output_file : string := "".
Definition chunksize : Z := 50000.
End Globals.

Definition option_like (token : string) : bool := String.prefix "-" token.

(** [Namespace] attribute access, [args.name]. *)
Fixpoint getattr (args : Namespace) (name : string) : result argval :=
  match args with
  | [] => Raise (AttributeError "Namespace" name)
  | (n, v) :: args' => if String.eqb n name then Ok v else getattr args' name
  end.

(** ** pandas *)

Fixpoint lookup_column (name : string) (cols : list (string * list pyval))
  : option (list pyval) :=
  match cols with
  | [] => None
  | (n, vals) :: cols' =>
      if String.eqb n name then Some vals else lookup_column name cols'
  end.

(** The cell of a row under a column name. *)
Fixpoint row_get (key : string) (names : list string) (cells : list pyval)
  : option pyval :=
  match names, cells with
  | n :: names', c :: cells' =>
      if String.eqb n key then Some c else row_get key names' cells'
  | _, _ => None
  end.

Definition column_names (df : DataFrame) : list string :=
  map fst (df_columns df).

(** [df.name] for a name that is no attribute of the class: the column,
    if there is one. *)
Definition DataFrame_getattr (df : DataFrame) (name : string) : result Series :=
  match lookup_column name (df_columns df) with
  | Some vals => Ok {| s_index := df_index df; s_values := vals |}
  | None => Raise (AttributeError "DataFrame" name)
  end.

Fixpoint set_column (name : string) (vals : list pyval)
    (cols : list (string * list pyval)) : list (string * list pyval) :=
  match cols with
  | [] => [(name, vals)]
  | (n, old) :: cols' =>
      if String.eqb n name then (n, vals) :: cols'
      else (n, old) :: set_column name vals cols'
  end.

(** [df[name] = values]: a column of that name is replaced where it
    stands, a new name is added as the last column.  (The CSV reader
    gives no two columns of a frame the same name.) *)
Definition setitem (df : DataFrame) (name : string) (vals : list pyval)
  : DataFrame :=
  {| df_index := df_index df;
     df_columns := set_column name vals (df_columns df) |}.

Fixpoint as_bools (vals : list pyval) : option (list bool) :=
  match vals with
  | [] => Some []
  | VBool b :: vals' => bs ← as_bools vals'; Some (b :: bs)
  | _ :: _ => None
  end.

Fixpoint mask_filter {A : Type} (mask : list bool) (l : list A) : list A :=
  match mask, l with
  | b :: mask', x :: l' =>
      if b then x :: mask_filter mask' l' else mask_filter mask' l'
  | _, _ => []
  end.

(** [df[mask]] for a boolean mask: the rows at the mask's true places. *)
Definition getitem_bool (df : DataFrame) (mask : list bool) : result DataFrame :=
  if (length mask =? length (df_index df))%nat
  then Ok {| df_index := mask_filter mask (df_index df);
             df_columns :=
               map (fun c => (fst c, mask_filter mask (snd c))) (df_columns df) |}
  else Raise (ValueError "Item wrong length").

(** The union of the frames' column names, by first appearance. *)
Fixpoint union_names (seen : list string) (names : list string) : list string :=
  match names with
  | [] => seen
  | n :: names' =>
      if existsb (String.eqb n) seen then union_names seen names'
      else union_names (seen ++ [n]) names'
  end.

(** [pd.concat(objs)]: the rows of the frames one after another; a
    frame without one of the columns gets NaN there. *)
Definition concat (objs : list DataFrame) : result DataFrame :=
  match objs with
  | [] => Raise (ValueError "No objects to concatenate")
  | _ :: _ =>
      let names :=
        fold_left (fun seen df => union_names seen (column_names df)) objs [] in
      Ok {| df_index := List.concat (map df_index objs);
            df_columns :=
              map (fun n =>
                     (n, List.concat
                           (map (fun df =>
                                   match lookup_column n (df_columns df) with
                                   | Some vals => vals
                                   | None =>
                                       repeat (VFloat nan) (length (df_index df))
                                   end) objs))) names |}
  end.

(** [chunksize=] must be an integer, 1 or more; it is looked at before
    the file is. *)
Definition validate_chunksize (v : argval) : result Z :=
  match v with
  | AInt z =>
      if 1 <=? z then Ok z
      else Raise (ValueError "'chunksize' must be an integer >=1")
  | AStr _ => Raise (ValueError "'chunksize' must be an integer >=1")
  end.

Fixpoint chunks {A : Type} (fuel : nat) (n : nat) (l : list A) : list (list A) :=
  match fuel, l with
  | S fuel', _ :: _ => take n l :: chunks fuel' n (drop n l)
  | _, _ => []
  end.

(** The chunks a reader yields: [n] records each, the last one maybe
    fewer; a file of a header alone yields one chunk without rows. *)
Definition reader_chunks {A : Type} (n : nat) (records : list A) : list (list A) :=
  match records with
  | [] => [[]]
  | _ :: _ => chunks (length records) n records
  end.

(** All the records of a chunk, or the error of the first malformed one. *)
Fixpoint sequence {A : Type} (l : list (result A)) : result (list A) :=
  match l with
  | [] => Ok []
  | r :: l' => x ← r; xs ← sequence l'; Ok (x :: xs)
  end.

(** The frame of a chunk: row labels count on from [start]; column [j]
    holds the [j]-th cell of every record. *)
Definition frame_of (header : list string) (start : Z) (rows : list (list pyval))
  : DataFrame :=
  {| df_index := map (fun i => start + Z.of_nat i) (seq 0 (length rows));
     df_columns :=
       imap (fun j name => (name, map (fun r => nth j r (VFloat nan)) rows))
            header |}.

(** The rows of a frame, each the list of its cells. *)
Fixpoint transpose (n : nat) (cols : list (list pyval)) : list (list pyval) :=
  match n with
  | O => []
  | S n' =>
      map (fun c => hd (VFloat nan) c) cols :: transpose n' (map (@tl pyval) cols)
  end.

Definition join_line (fields : list string) : string :=
  String.concat "," fields ++ String (Ascii.ascii_of_nat 10) EmptyString.

(** ** The script *)

Section Script.
Context `{L : Libraries}.

(** [Polygon(shell)]: no coordinates give the empty polygon; four or
    more are closed into the exterior ring.  A ring whose ends still do
    not compare equal then (its first coordinate holds a NaN) is one
    GEOS refuses. *)
Definition Polygon_new (shell : list coordinate) : result Polygon :=
  match shell with
  | [] => Ok {| exterior := [] |}
  | p :: _ =>
      if (length shell <? 4)%nat then Polygon_short shell
      else
        let ring := close_ring shell in
        if coord_eqb p (List.last ring p) then Ok {| exterior := ring |}
        else Raise (LibraryError "shapely" "GEOSException")
  end.

(** [shapely.ops.transform(func, polygon)]: an empty polygon is returned
    as it is, otherwise a polygon is built from the images of the
    exterior's coordinates. *)
Definition transform (func : coordinate -> coordinate) (geom : Polygon)
  : result Polygon :=
  match exterior geom with
  | [] => Ok geom
  | _ :: _ => Polygon_new (map func (exterior geom))
  end.

(** [hex_to_poly], nested in [run] (lines 28-31). *)
Definition hex_to_poly (hex_id : pyval) : result pyval :=
  coords ← cell_to_boundary hex_id;
  polygon ← Polygon_new (map (fun t => (snd t, fst t)) coords);
  Ok (VPoly polygon).

(** [polygon_for_hex_id] of api_sketches.py. *)
Definition polygon_for_hex_id (hex_id : pyval) : result Polygon :=
  boundary ← h3_to_geo_boundary hex_id;
  shell ← Polygon_new boundary;
  transform (fun xy => (snd xy, fst xy)) shell.

(** [parse_args]: without option-like tokens, the tokens are the values
    of the positionals, one each, all of them required; a declared
    [default] is not looked at.  The values stay strings. *)
Definition positionals (argv : list string) : result (list string) :=
  if forallb (fun t => negb (option_like t)) argv then Ok argv
  else argparse_options argv.

Definition parse_args (argv : list string) : result Namespace :=
  values ← positionals argv;
  if (length values =? length parser)%nat
  then Ok (zip (map dest parser) (map AStr values))
  else Raise (SystemExit 2).

(** [in_bounds], nested in [run] (lines 33-34), and the subscript
    [row["geometry"]] it takes. *)
Definition subscript (v : pyval) (key : string) : result pyval :=
  match v with
  | VRow names cells =>
      match row_get key names cells with
      | Some c => Ok c
      | None => Raise (KeyError key)
      end
  | VNone => Raise (TypeError "'NoneType' object is not subscriptable")
  | VStr _ => Raise (TypeError "string indices must be integers")
  | VInt _ => Raise (TypeError "'int' object is not subscriptable")
  | VFloat _ => Raise (TypeError "'float' object is not subscriptable")
  | VBool _ => Raise (TypeError "'bool' object is not subscriptable")
  | VPoly _ => Raise (TypeError "'Polygon' object is not subscriptable")
  end.

Definition in_bounds (bounds : geometry) (row : pyval) : result pyval :=
  g ← subscript row "geometry";
  match g with
  | VPoly p => Ok (VBool (contains bounds p))
  | _ => b ← contains_value bounds g; Ok (VBool b)
  end.

(** [df[key]]: a key of booleans, one at least, is a mask. *)
Definition getitem (df : DataFrame) (key : Series) : result DataFrame :=
  match s_values key, as_bools (s_values key) with
  | _ :: _, Some mask => getitem_bool df mask
  | _, _ => getitem_labels df key
  end.

(** Line 38: [df["geometry"] = df.grid_id.apply(hex_to_poly)]. *)
Definition assign_geometry (df : DataFrame) : result DataFrame :=
  grid_id ← DataFrame_getattr df "grid_id";
  polygons ← Series_apply hex_to_poly (s_values grid_id);
  Ok (setitem df "geometry" polygons).

(** Line 39: [df[df.geometry.apply(in_bounds)].copy()]. *)
Definition select_in_bounds (bounds : geometry) (df : DataFrame)
  : result DataFrame :=
  geom ← DataFrame_getattr df "geometry";
  mask ← Series_apply (in_bounds bounds) (s_values geom);
  getitem df {| s_index := s_index geom; s_values := mask |}.

(** The body of the loop, lines 38-39. *)
Definition process_chunk (bounds : geometry) (df : DataFrame) : result DataFrame :=
  df' ← assign_geometry df;
  select_in_bounds bounds df'.

(** [pd.read_csv(path, chunksize=...)]: the reader, its header read. *)
Record TextFileReader : Type :=
  { header : list string;
    pending : list (list (result (list pyval))) }.

Definition read_csv (path chunksize : argval) : M TextFileReader :=
  n ← lift (validate_chunksize chunksize);
  match path with
  | AInt _ => lift (Raise (ValueError "Invalid file path or buffer object type"))
  | AStr _ =>
      text ← open_read path;
      parsed ← lift (csv_parse text);
      mret {| header := fst parsed;
              pending := reader_chunks (Z.to_nat n) (snd parsed) |}
  end.

(** Lines 36-39: the loop over the chunks the reader yields. *)
Fixpoint loop (bounds : geometry) (header : list string) (start : Z)
    (pending : list (list (result (list pyval))))
    (in_bounds_acc : list DataFrame) : M (list DataFrame) :=
  match pending with
  | [] => mret in_bounds_acc
  | chunk :: pending' =>
      _ ← emit (ReadChunk (length chunk));
      rows ← lift (sequence chunk);
      kept ← lift (process_chunk bounds (frame_of header start rows));
      loop bounds header (start + Z.of_nat (length rows)) pending'
           (in_bounds_acc ++ [kept])
  end.

(** [df.to_csv(path, index=...)]: the header line and a line per row;
    with [index] the row label comes first. *)
Definition to_csv_text (df : DataFrame) (index : bool) : string :=
  let rows := transpose (length (df_index df)) (map snd (df_columns df)) in
  let head := map (fun n => render_cell (VStr n)) (column_names df) in
  let body :=
    map (fun lr => (if index then [render_cell (VInt (fst lr))] else [])
                   ++ map render_cell (snd lr))
        (zip (df_index df) rows) in
  String.concat "" (map join_line ((if index then "" :: head else head) :: body)).

Definition to_csv (df : DataFrame) (path : argval) (index : bool) : M unit :=
  match path with
  | AStr p => write_file p (to_csv_text df index)
  | AInt _ => lift (Raise (ValueError "Invalid file path or buffer object type"))
  end.

(** Lines 23-42 of [run], after [parse_args]. *)
Definition run_body (args : Namespace) : M unit :=
  _ ← emit PrintBanner;
  _ ← emit (PrintArgs args);
  wkt_boundary_file ← lift (getattr args "wkt_boundary_file");
  text ← open_read wkt_boundary_file;
  bounds ← lift (wkt_loads text);
  mep_matrix_file ← lift (getattr args "mep_matrix_file");
  chunksize ← lift (getattr args "chunksize");
  reader ← read_csv mep_matrix_file chunksize;
  in_bounds_acc ← loop bounds (header reader) 0 (pending reader) [];
  result ← lift (concat in_bounds_acc);
  _ ← emit (PrintFinished (length (df_index result)));
  output_file ← lift (getattr args "output_file");
  to_csv result output_file false.

(** [run] (lines 21-42), on the command line [argv]. *)
Definition run (argv : list string) : M unit :=
  args ← lift (parse_args argv);
  run_body args.

End Script.

(** ** api_sketches.py: the GeoJSON of a polygon *)

(** The dictionary [polygon_to_h3_geojson] returns, its two keys. *)
Record GeoJSON : Type :=
  { type : string; coordinates : list (list coordinate) }.

Section Sketches.
Context `{L : Libraries}.

(** [polygon_to_h3_geojson] (lines 8-20): the polygon with x and y
    exchanged, and of it the coordinates of the exterior ring. *)
Definition polygon_to_h3_geojson (polygon : Polygon) : result GeoJSON :=
  transformed_polygon ← transform (fun xy => (snd xy, fst xy)) polygon;
  let coordinates := exterior transformed_polygon in
  Ok {| type := "Polygon"; coordinates := [coordinates] |}.

End Sketches.

(** ** An instance of the libraries

    A square boundary, two hex cells and a comma-splitting CSV reader:
    what it takes to run the script on a matrix of two rows, cell H1
    inside the boundary and cell H2 outside. *)
Module Scenario.

Record box : Type := { xmin : float; ymin : float; xmax : float; ymax : float }.

Definition square_wkt : string := "POLYGON ((0 0, 10 0, 10 10, 0 10, 0 0))".

Definition loads (text : string) : result box :=
  if String.eqb text square_wkt
  then Ok {| xmin := 0; ymin := 0; xmax := 10; ymax := 10 |}
  else Raise (LibraryError "shapely" "WKTReadingError").

Definition box_contains (b : box) (p : Polygon) : bool :=
  forallb (fun c => PrimFloat.leb (xmin b) (fst c) && PrimFloat.leb (fst c) (xmax b)
                    && PrimFloat.leb (ymin b) (snd c) && PrimFloat.leb (snd c) (ymax b))
          (exterior p).

(** Vertices as (lat, lng); H1 spans lng 1..3, lat 4..6, H2 lies east of
    the square. *)
Definition H1 : list coordinate :=
  [(5, 3); (6, 2.5); (6, 1.5); (5, 1); (4, 1.5); (4, 2.5)]%float.
Definition H2 : list coordinate :=
  [(5, 23); (6, 22.5); (6, 21.5); (5, 21); (4, 21.5); (4, 22.5)]%float.

Definition cell_boundary (h : pyval) : result (list coordinate) :=
  match h with
  | VStr s =>
      if String.eqb s "H1" then Ok H1
      else if String.eqb s "H2" then Ok H2
      else Raise (LibraryError "h3" "H3CellInvalidError")
  | _ => Raise (TypeError "cell must be a string")
  end.

Fixpoint split (sep : Ascii.ascii) (s : string) : list string :=
  match s with
  | EmptyString => [EmptyString]
  | String c s' =>
      if Ascii.eqb c sep then EmptyString :: split sep s'
      else match split sep s' with
           | [] => [String c EmptyString]
           | w :: ws => String c w :: ws
           end
  end.

Definition digit (c : Ascii.ascii) : option Z :=
  let n := Z.of_nat (Ascii.nat_of_ascii c) in
  if (48 <=? n) && (n <=? 57) then Some (n - 48) else None.

Fixpoint number (acc : Z) (s : string) : option Z :=
  match s with
  | EmptyString => Some acc
  | String c s' => d ← digit c; number (10 * acc + d) s'
  end.

Definition cell (s : string) : pyval :=
  match s with
  | EmptyString => VFloat nan
  | String _ _ => match number 0 s with Some z => VInt z | None => VStr s end
  end.

Definition newline : Ascii.ascii := Ascii.ascii_of_nat 10.
Definition comma : Ascii.ascii := Ascii.ascii_of_nat 44.

Definition parse (text : string) : result (list string * list (result (list pyval))) :=
  match filter (fun l => l ≠ EmptyString) (split newline text) with
  | [] => Raise (LibraryError "pandas" "EmptyDataError")
  | head :: records =>
      let names := split comma head in
      Ok (names,
          map (fun r =>
                 let cells := split comma r in
                 if (length cells =? length names)%nat then Ok (map cell cells)
                 else Raise (LibraryError "pandas" "ParserError"))
              records)
  end.

Definition render (v : pyval) : string :=
  match v with
  | VNone => ""
  | VStr s => s
  | VInt z => pretty z
  | VBool b => if b then "True" else "False"
  | VFloat _ => "<float>"
  | VPoly _ => "<POLYGON>"
  | VRow _ _ => "<row>"
  end.

#[local] Instance libraries : Libraries :=
  {| geometry := box;
     wkt_loads := loads;
     contains := box_contains;
     contains_value := fun _ v =>
       match v with
       | VNone => Ok false
       | _ => Raise (TypeError "not a geometry")
       end;
     cell_to_boundary := cell_boundary;
     h3_to_geo_boundary := cell_boundary;
     Polygon_short := fun _ =>
       Raise (ValueError "A linearring requires at least 4 coordinates.");
     csv_parse := parse;
     getitem_labels := fun df _ => Ok {| df_index := df_index df; df_columns := [] |};
     render_cell := render;
     argparse_options := fun _ => Raise (SystemExit 2) |}.

Definition nl : string := String newline EmptyString.

(** The scenario's files. *)
Definition matrix_csv : string :=
  "grid_id,pop" ++ nl ++ "H1,10" ++ nl ++ "H2,20" ++ nl.

Definition header_only_csv : string := "grid_id,pop" ++ nl.

Definition disk (boundary matrix : string) : world :=
  {| files := {[ "boundary.wkt" := boundary; "matrix.csv" := matrix ]};
     trace := [] |}.

(** A command line with all four positionals and one without the chunk
    size. *)
Definition argv4 (chunksize : string) : list string :=
  ["boundary.wkt"; "matrix.csv"; "out.csv"; chunksize].
Definition argv3 : list string := ["boundary.wkt"; "matrix.csv"; "out.csv"].

(** The namespace the body of [run] reads its attributes from: the
    names with underscores, the chunk size an integer. *)
Definition namespace (chunksize : Z) : Namespace :=
  [("wkt_boundary_file", AStr "boundary.wkt");
   ("mep_matrix_file", AStr "matrix.csv");
   ("output_file", AStr "out.csv");
   ("chunksize", AInt chunksize)].

(** A chunk of the scenario's matrix, the same chunk with a column
    [geometry] of its own, and the polygons of its two cells. *)
Definition chunk_frame : DataFrame :=
  frame_of ["grid_id"; "pop"] 0 [[VStr "H1"; VInt 10]; [VStr "H2"; VInt 20]].

Definition geometry_frame : DataFrame :=
  frame_of ["grid_id"; "geometry"; "pop"] 0
    [[VStr "H1"; VStr "POINT (1 1)"; VInt 10];
     [VStr "H2"; VStr "POINT (2 2)"; VInt 20]].

Definition polygons : list pyval :=
  [VPoly {| exterior := close_ring (map swap_latlng H1) |};
   VPoly {| exterior := close_ring (map swap_latlng H2) |}].

End Scenario.

(** ** Predicates on computations *)

(** No file is created or replaced among these events. *)
Definition no_write (evs : list event) : Prop :=
  forall p, ~ In (WriteFile p) evs.

(** A computation that leaves the files alone. *)
Definition quiet {A : Type} (m : M A) : Prop :=
  forall w, exists evs,
    files (snd (m w)) = files w /\
    trace (snd (m w)) = trace w ++ evs /\
    no_write evs.

(** A computation that writes one file as its last step when it
    returns, and none when it raises. *)
Definition writes_last (m : M unit) : Prop :=
  forall w,
    match m w with
    | (Raise _, w') =>
        files w' = files w /\
        exists evs, trace w' = trace w ++ evs /\ no_write evs
    | (Ok _, w') =>
        exists p text evs,
          files w' = <[p := text]> (files w) /\
          trace w' = trace w ++ evs ++ [WriteFile p] /\
          no_write evs
    end.


(** [ring] is the coordinates [l] closed into a ring: [l] itself when
    its ends compare equal, [l] and its first coordinate again when they
    do not; and the ends of [ring] compare equal. *)
Definition closes (l ring : list coordinate) : Prop :=
  match l with
  | [] => ring = []
  | p :: _ =>
      (if coord_eqb p (List.last l p) then ring = l else ring = l ++ [p]) /\
      coord_eqb p (List.last ring p) = true
  end.

(** Two outcomes that are two values related by [R] or two exceptions
    related by [E]. *)
Definition outcome_rel {A : Type} (R : A -> A -> Prop) (E : exn -> exn -> Prop)
    (r1 r2 : result A) : Prop :=
  match r1, r2 with
  | Ok a1, Ok a2 => R a1 a2
  | Raise e1, Raise e2 => E e1 e2
  | _, _ => False
  end.

(** Two computations that, started on the same files, end in related
    outcomes and on the same files. *)
Definition sim {A : Type} (R : A -> A -> Prop) (E : exn -> exn -> Prop)
    (m1 m2 : M A) : Prop :=
  forall w1 w2,
    files w1 = files w2 ->
    outcome_rel R E (fst (m1 w1)) (fst (m2 w2)) /\
    files (snd (m1 w1)) = files (snd (m2 w2)).

(** * Properties *)

(** ** Rings and polygons: lemmas *)

Lemma coord_eqb_swap (p q : coordinate) :
  coord_eqb (swap_latlng p) (swap_latlng q) = coord_eqb p q.
Proof. unfold coord_eqb, swap_latlng; simpl. apply andb_comm. Qed.

Lemma last_map_swap (l : list coordinate) (d : coordinate) :
  List.last (map swap_latlng l) (swap_latlng d) = swap_latlng (List.last l d).
Proof.
  induction l as [|a l IH]; [reflexivity|].
  destruct l as [|b l]; [reflexivity|].
  exact IH.
Qed.

Lemma close_ring_swap (l : list coordinate) :
  close_ring (map swap_latlng l) = map swap_latlng (close_ring l).
Proof.
  destruct l as [|p l]; [reflexivity|].
  unfold close_ring.
  change (map swap_latlng (p :: l)) with (swap_latlng p :: map swap_latlng l) at 1.
  cbv iota beta.
  change (swap_latlng p :: map swap_latlng l) with (map swap_latlng (p :: l)).
  rewrite last_map_swap, coord_eqb_swap.
  destruct (coord_eqb p (List.last (p :: l) p)); [reflexivity|].
  now rewrite map_app.
Qed.

Lemma close_ring_cases (l : list coordinate) :
  close_ring l = l \/
  exists p l', l = p :: l' /\ close_ring l = l ++ [p].
Proof.
  destruct l as [|p l]; [now left|].
  unfold close_ring.
  destruct (coord_eqb p (List.last (p :: l) p)); [now left|].
  right. now exists p, l.
Qed.

Lemma close_ring_take (l : list coordinate) :
  take (length l) (close_ring l) = l.
Proof.
  destruct (close_ring_cases l) as [-> | (p & l' & _ & ->)].
  - apply firstn_all.
  - now rewrite take_app_length.
Qed.

Lemma close_ring_length (l : list coordinate) :
  (length l <= length (close_ring l))%nat.
Proof.
  destruct (close_ring_cases l) as [-> | (p & l' & _ & ->)]; [lia|].
  rewrite length_app. lia.
Qed.

Lemma last_snoc (l : list coordinate) (p d : coordinate) :
  List.last (l ++ [p]) d = p.
Proof. apply last_last. Qed.

(** Closing a ring twice is closing it once, when its first coordinate
    compares equal to itself (it holds no NaN). *)
Lemma close_ring_idem (l : list coordinate) :
  (forall p, head l = Some p -> coord_eqb p p = true) ->
  close_ring (close_ring l) = close_ring l.
Proof.
  intros Hp.
  destruct (close_ring_cases l) as [E | (p & l' & -> & E)].
  - rewrite E. exact E.
  - rewrite E. specialize (Hp p eq_refl).
    unfold close_ring.
    change ((p :: l') ++ [p]) with (p :: (l' ++ [p])).
    cbv iota beta.
    change (p :: (l' ++ [p])) with ((p :: l') ++ [p]).
    now rewrite last_snoc, Hp.
Qed.

Lemma close_ring_closed (p : coordinate) (l : list coordinate) :
  coord_eqb p p = true ->
  coord_eqb p (List.last (close_ring (p :: l)) p) = true.
Proof.
  intros Hp. unfold close_ring.
  destruct (coord_eqb p (List.last (p :: l) p)) eqn:E; [exact E|].
  now rewrite last_snoc.
Qed.

Lemma close_ring_fixed (p : coordinate) (l : list coordinate) :
  close_ring (p :: l) = p :: l ->
  coord_eqb p (List.last (p :: l) p) = true.
Proof.
  unfold close_ring.
  destruct (coord_eqb p (List.last (p :: l) p)); [reflexivity|].
  intros H. apply (f_equal (@length coordinate)) in H.
  rewrite length_app in H. simpl in H. lia.
Qed.

Lemma closes_close_ring (p : coordinate) (l : list coordinate) :
  coord_eqb p p = true ->
  closes (p :: l) (close_ring (p :: l)).
Proof.
  intros Hp. unfold closes. split; [|now apply close_ring_closed].
  unfold close_ring.
  destruct (coord_eqb p (List.last (p :: l) p)); reflexivity.
Qed.

Section Polygons.
Context `{L : Libraries}.

Lemma Polygon_new_closed (p : coordinate) (l : list coordinate) :
  (4 <= length (p :: l))%nat ->
  coord_eqb p (List.last (close_ring (p :: l)) p) = true ->
  Polygon_new (p :: l) = Ok {| exterior := close_ring (p :: l) |}.
Proof.
  intros Hlen Hc. unfold Polygon_new.
  destruct (Nat.ltb_spec (length (p :: l)) 4); [lia|].
  cbv zeta. now rewrite Hc.
Qed.

Lemma Polygon_new_ok (shell : list coordinate) :
  (4 <= length shell)%nat ->
  (forall p, head shell = Some p -> coord_eqb p p = true) ->
  Polygon_new shell = Ok {| exterior := close_ring shell |}.
Proof.
  intros Hlen Hp. destruct shell as [|p l]; [simpl in Hlen; lia|].
  apply Polygon_new_closed; [assumption|].
  apply close_ring_closed, Hp. reflexivity.
Qed.

Lemma hex_to_poly_ok (hex_id : pyval) (vs : list coordinate) :
  cell_to_boundary hex_id = Ok vs ->
  (4 <= length vs)%nat ->
  Forall (fun v => coord_eqb v v = true) vs ->
  hex_to_poly hex_id
  = Ok (VPoly {| exterior := close_ring (map swap_latlng vs) |}).
Proof.
  intros Hcell Hlen Hnum. unfold hex_to_poly. rewrite Hcell. simpl.
  change (Polygon_new (map _ vs)) with (Polygon_new (map swap_latlng vs)).
  rewrite Polygon_new_ok; [reflexivity|now rewrite length_map|].
  intros p Hp. destruct vs as [|v vs']; [discriminate|].
  injection Hp as <-. rewrite coord_eqb_swap. now inversion Hnum.
Qed.

Lemma polygon_for_hex_id_ok (hex_id : pyval) (vs : list coordinate) :
  h3_to_geo_boundary hex_id = Ok vs ->
  (4 <= length vs)%nat ->
  Forall (fun v => coord_eqb v v = true) vs ->
  polygon_for_hex_id hex_id
  = Ok {| exterior := close_ring (map swap_latlng vs) |}.
Proof.
  intros Hgeo Hlen Hnum.
  destruct vs as [|v vs']; [simpl in Hlen; lia|].
  assert (Hv : coord_eqb v v = true) by now inversion Hnum.
  assert (Hidem : close_ring (close_ring (v :: vs')) = close_ring (v :: vs')).
  { apply close_ring_idem. now intros p [= <-]. }
  pose proof (close_ring_length (v :: vs')) as Hc.
  unfold polygon_for_hex_id. rewrite Hgeo. cbn [mbind result_bind].
  rewrite Polygon_new_ok; [|assumption|now intros p [= <-]].
  cbn [mbind result_bind]. unfold transform. cbn [exterior].
  destruct (close_ring (v :: vs')) as [|c r] eqn:E;
    [simpl in Hc; lia|].
  assert (Hcv : c = v).
  { revert E. unfold close_ring.
    destruct (coord_eqb v (List.last (v :: vs') v)); now intros [= -> _]. }
  subst c. rewrite <- E in *.
  change (Polygon_new (map _ (close_ring (v :: vs'))))
    with (Polygon_new (map swap_latlng (close_ring (v :: vs')))).
  rewrite Polygon_new_ok.
  - now rewrite close_ring_swap, Hidem, close_ring_swap.
  - rewrite length_map. lia.
  - rewrite E. intros p [= <-]. now rewrite coord_eqb_swap.
Qed.

(** C3.  For a hex cell identifier that h3 decodes to the vertices [vs]
    (latitude first), [hex_to_poly] returns a polygon; its exterior is
    the vertices, each reordered to (longitude, latitude), in h3's
    order, closed into a ring: nothing is added when the ends of h3's
    list compare equal, the first vertex is repeated at the end when
    they do not, and the ends of the ring compare equal.
    [polygon_for_hex_id] of api_sketches.py does the same with the
    vertices its own h3 call returns (it closes first and reorders
    after). *)
Theorem hex_to_poly_reorders_and_closes
    (hex_id : pyval) (vs : list coordinate)
    (Hcell : cell_to_boundary hex_id = Ok vs)
    (Hlen : (4 <= length vs)%nat)
    (Hnum : Forall (fun v => coord_eqb v v = true) vs) :
  (exists ring,
      hex_to_poly hex_id = Ok (VPoly {| exterior := ring |}) /\
      closes (map swap_latlng vs) ring /\
      take (length vs) ring = map swap_latlng vs) /\
  (forall vs',
      h3_to_geo_boundary hex_id = Ok vs' ->
      (4 <= length vs')%nat ->
      Forall (fun v => coord_eqb v v = true) vs' ->
      exists ring,
        polygon_for_hex_id hex_id = Ok {| exterior := ring |} /\
        closes (map swap_latlng vs') ring /\
        take (length vs') ring = map swap_latlng vs').
Proof.
  assert (Hring : forall l,
            (4 <= length l)%nat ->
            Forall (fun v => coord_eqb v v = true) l ->
            closes (map swap_latlng l) (close_ring (map swap_latlng l)) /\
            take (length l) (close_ring (map swap_latlng l)) = map swap_latlng l).
  { intros l Hl Hn. split.
    - destruct l as [|v l']; [simpl in Hl; lia|].
      apply closes_close_ring. rewrite coord_eqb_swap. now inversion Hn.
    - rewrite <- (length_map swap_latlng l) at 1. apply close_ring_take. }
  split.
  - exists (close_ring (map swap_latlng vs)).
    split; [now apply hex_to_poly_ok|]. now apply Hring.
  - intros vs' Hgeo Hlen' Hnum'.
    exists (close_ring (map swap_latlng vs')).
    split; [now apply polygon_for_hex_id_ok|]. now apply Hring.
Qed.

End Polygons.

Lemma hex_to_poly_reorders_and_closes_witness :
  exists ring,
    @hex_to_poly Scenario.libraries (VStr "H1") = Ok (VPoly {| exterior := ring |}) /\
    closes (map swap_latlng Scenario.H1) ring /\
    take (length Scenario.H1) ring = map swap_latlng Scenario.H1.
Proof.
  apply (@hex_to_poly_reorders_and_closes Scenario.libraries (VStr "H1") Scenario.H1).
  - reflexivity.
  - simpl. lia.
  - repeat (constructor; [vm_compute; reflexivity|]). constructor.
Defined.

(** ** The command line *)

Section CommandLine.
Context `{L : Libraries}.

Lemma parse_args_plain (argv : list string) :
  forallb (fun t => negb (option_like t)) argv = true ->
  parse_args argv =
    if (length argv =? 4)%nat
    then Ok (zip (map dest parser) (map AStr argv))
    else Raise (SystemExit 2).
Proof.
  intros Hplain. unfold parse_args, positionals. rewrite Hplain. reflexivity.
Qed.

(** Whatever the tokens, a namespace that [parse_args] returns has the
    four destinations as the parser spells them, each with a string. *)
Lemma parse_args_namespace (argv : list string) (args : Namespace) :
  parse_args argv = Ok args ->
  exists b m o c,
    args = [("wkt-boundary-file", AStr b); ("mep-matrix-file", AStr m);
            ("output_file", AStr o); ("chunksize", AStr c)].
Proof.
  unfold parse_args. destruct (positionals argv) as [values|e]; [|discriminate].
  simpl.
  destruct values as [|b [|m [|o [|c [|x values]]]]]; try discriminate.
  intros [= <-]. now exists b, m, o, c.
Qed.

Lemma getattr_parsed (argv : list string) (args : Namespace) :
  parse_args argv = Ok args ->
  getattr args "wkt_boundary_file"
  = Raise (AttributeError "Namespace" "wkt_boundary_file").
Proof.
  intros H. destruct (parse_args_namespace _ _ H) as (b & m & o & c & ->).
  reflexivity.
Qed.

(** Every run ends in an exception: the one of [parse_args] (the exit
    of argparse), or the attribute error of line 25; the files are as
    before and nothing but the two prints has happened. *)
Lemma run_raises (argv : list string) (w : world) :
  exists e w',
    run argv w = (Raise e, w') /\
    files w' = files w /\
    (forall ev, In ev (trace w') ->
                In ev (trace w) \/ ev = PrintBanner \/ exists a, ev = PrintArgs a) /\
    (parse_args argv = Raise e \/
     e = AttributeError "Namespace" "wkt_boundary_file").
Proof.
  unfold run.
  destruct (parse_args argv) as [args|e] eqn:E.
  - pose proof (getattr_parsed _ _ E) as Hattr.
    exists (AttributeError "Namespace" "wkt_boundary_file").
    eexists. split; [|split; [|split]].
    + unfold run_body, mbind, M_bind, lift, emit. simpl. rewrite Hattr. reflexivity.
    + reflexivity.
    + simpl. intros ev Hin. rewrite <- app_assoc in Hin.
      apply in_app_or in Hin as [Hin|[<-|[<-|[]]]]; eauto.
    + now right.
  - exists e, w. repeat split; eauto.
Qed.

End CommandLine.

(** ** Effects of the run on the files *)

Lemma no_write_nil : no_write [].
Proof. intros p []. Qed.

Lemma no_write_app (evs evs' : list event) :
  no_write evs -> no_write evs' -> no_write (evs ++ evs').
Proof.
  intros H H' p Hin. apply in_app_or in Hin as [Hin|Hin]; [exact (H p Hin)|exact (H' p Hin)].
Qed.

Lemma no_write_single (e : event) :
  (forall p, e <> WriteFile p) -> no_write [e].
Proof. intros He p [H|[]]. exact (He p H). Qed.

Lemma bind_M {A B : Type} (m : M A) (f : A -> M B) (w : world) :
  (m ≫= f) w =
  match m w with
  | (Ok a, w') => f a w'
  | (Raise e, w') => (Raise e, w')
  end.
Proof. reflexivity. Qed.

Lemma quiet_ret {A : Type} (a : A) : quiet (mret a : M A).
Proof.
  intros w. exists []. simpl. rewrite app_nil_r. auto using no_write_nil.
Qed.

Lemma quiet_lift {A : Type} (r : result A) : quiet (lift r).
Proof.
  intros w. exists []. simpl. rewrite app_nil_r. auto using no_write_nil.
Qed.

Lemma quiet_emit (e : event) :
  (forall p, e <> WriteFile p) -> quiet (emit e).
Proof.
  intros He w. exists [e]. simpl. auto using no_write_single.
Qed.

Lemma quiet_read_file (p : string) : quiet (read_file p).
Proof.
  intros w. exists []. unfold read_file.
  destruct (files w !! p); simpl; rewrite app_nil_r; auto using no_write_nil.
Qed.

Lemma quiet_bind {A B : Type} (m : M A) (f : A -> M B) :
  quiet m -> (forall a, quiet (f a)) -> quiet (m ≫= f).
Proof.
  intros Hm Hf w. rewrite bind_M.
  destruct (Hm w) as (evs & Hfiles & Htrace & Hnw).
  destruct (m w) as [[a|e] w1]; simpl in *.
  - destruct (Hf a w1) as (evs' & Hfiles' & Htrace' & Hnw').
    exists (evs ++ evs'). rewrite Hfiles', Htrace', Hfiles, Htrace, app_assoc.
    auto using no_write_app.
  - now exists evs.
Qed.

Create HintDb quiet.
#[local] Hint Resolve quiet_ret quiet_lift quiet_read_file : quiet.
#[local] Hint Extern 1 (quiet (emit _)) =>
  apply quiet_emit; intros ?; discriminate : quiet.
#[local] Hint Extern 2 (quiet (_ ≫= _)) =>
  apply quiet_bind; [|intros ?] : quiet.

Lemma quiet_open_read (path : argval) : quiet (open_read path).
Proof. destruct path; simpl; auto with quiet. Qed.

#[local] Hint Resolve quiet_open_read : quiet.

Section Effects.
Context `{L : Libraries}.

Lemma quiet_read_csv (path chunksize : argval) : quiet (read_csv path chunksize).
Proof. unfold read_csv. destruct path; auto 10 with quiet. Qed.

Lemma quiet_loop (bounds : geometry) (hd : list string)
    (pending : list (list (result (list pyval)))) :
  forall (start : Z) (acc : list DataFrame),
    quiet (loop bounds hd start pending acc).
Proof.
  induction pending as [|chunk pending IH]; intros start acc; simpl.
  - auto with quiet.
  - apply quiet_bind; [auto with quiet|intros _].
    apply quiet_bind; [auto with quiet|intros rows].
    apply quiet_bind; [auto with quiet|intros kept].
    apply IH.
Qed.

Lemma writes_last_bind {A : Type} (m : M A) (f : A -> M unit) :
  quiet m -> (forall a, writes_last (f a)) -> writes_last (m ≫= f).
Proof.
  intros Hm Hf w. rewrite bind_M.
  destruct (Hm w) as (evs & Hfiles & Htrace & Hnw).
  destruct (m w) as [[a|e] w1]; simpl in *.
  - specialize (Hf a w1).
    destruct (f a w1) as [[u|e] w2].
    + destruct Hf as (p & text & evs' & Hfiles' & Htrace' & Hnw').
      exists p, text, (evs ++ evs').
      rewrite Hfiles', Htrace', Hfiles, Htrace, !app_assoc.
      auto using no_write_app.
    + destruct Hf as (Hfiles' & evs' & Htrace' & Hnw').
      split; [congruence|].
      exists (evs ++ evs'). rewrite Htrace', Htrace, app_assoc.
      auto using no_write_app.
  - split; [assumption|]. now exists evs.
Qed.

Lemma writes_last_to_csv (df : DataFrame) (path : argval) (index : bool) :
  writes_last (to_csv df path index).
Proof.
  intros w. destruct path as [p|z]; simpl.
  - exists p, (to_csv_text df index), []. auto using no_write_nil.
  - split; [reflexivity|]. exists []. rewrite app_nil_r. auto using no_write_nil.
Qed.

Lemma writes_last_run_body (args : Namespace) : writes_last (run_body args).
Proof.
  unfold run_body.
  repeat (apply writes_last_bind;
          [auto using quiet_read_csv, quiet_loop with quiet|intros ?]).
  apply writes_last_to_csv.
Qed.

(** C10.  The output file is written by the last step of [run] alone.
    A run whose body raises (at the boundary file, at the CSV reader, at
    a hex identifier, at the containment test, at any step) leaves every
    file as it was and writes nothing; so does a run that [parse_args]
    ends.  A run that returns has written one file, as its last event,
    after every chunk was read. *)
Theorem output_written_last_or_never (w : world) :
  (forall args e w',
      run_body args w = (Raise e, w') ->
      files w' = files w /\
      exists evs, trace w' = trace w ++ evs /\ no_write evs) /\
  (forall argv e w',
      run argv w = (Raise e, w') ->
      files w' = files w /\
      exists evs, trace w' = trace w ++ evs /\ no_write evs) /\
  (forall args w',
      run_body args w = (Ok tt, w') ->
      exists p text evs,
        files w' = <[p := text]> (files w) /\
        trace w' = trace w ++ evs ++ [WriteFile p] /\
        no_write evs).
Proof.
  split; [|split].
  - intros args e w' H.
    pose proof (writes_last_run_body args w) as Hw. now rewrite H in Hw.
  - intros argv e w' H. unfold run in H. rewrite bind_M in H.
    destruct (parse_args argv) as [args|e0] eqn:E; simpl in H.
    + pose proof (writes_last_run_body args w) as Hw. now rewrite H in Hw.
    + injection H as <- <-. split; [reflexivity|].
      exists []. rewrite app_nil_r. auto using no_write_nil.
  - intros args w' H.
    pose proof (writes_last_run_body args w) as Hw. now rewrite H in Hw.
Qed.

(** C6.  When the text of the boundary file is not well-known text
    ([wkt.loads] raises), the body of [run] ends with that exception
    right after opening the boundary file: the matrix file is not
    opened, no chunk is read, nothing is written.  Started from a
    command line, [run] ends earlier still, with no file opened and
    none written. *)
Theorem malformed_boundary_fails_first
    (args : Namespace) (w : world) (p text : string) (e : exn)
    (Hattr : getattr args "wkt_boundary_file" = Ok (AStr p))
    (Hfile : files w !! p = Some text)
    (Hwkt : wkt_loads text = Raise e) :
  run_body args w =
    (Raise e,
     {| files := files w;
        trace := trace w ++ [PrintBanner; PrintArgs args; OpenRead p] |}) /\
  (forall argv, exists e' w',
      run argv w = (Raise e', w') /\
      files w' = files w /\
      forall ev, In ev (trace w') ->
                 In ev (trace w) \/ ev = PrintBanner \/ exists a, ev = PrintArgs a).
Proof.
  split.
  - unfold run_body, mbind, M_bind, lift, emit. simpl.
    rewrite Hattr. unfold open_read, mbind, M_bind, emit, read_file. simpl.
    rewrite Hfile, Hwkt.
    now rewrite <- !app_assoc.
  - intros argv. destruct (run_raises argv w) as (e' & w' & H & Hf & Ht & _).
    now exists e', w'.
Qed.

End Effects.

Lemma malformed_boundary_fails_first_witness :
  let w := Scenario.disk "POLYGON ((0 0, 10" Scenario.matrix_csv in
  @run_body Scenario.libraries (Scenario.namespace 1) w =
    (Raise (LibraryError "shapely" "WKTReadingError"),
     {| files := files w;
        trace := [PrintBanner; PrintArgs (Scenario.namespace 1);
                  OpenRead "boundary.wkt"] |}).
Proof.
  intros w.
  apply (@malformed_boundary_fails_first Scenario.libraries (Scenario.namespace 1) w
           "boundary.wkt" "POLYGON ((0 0, 10")
  ; vm_compute; reflexivity.
Defined.

(** The theorem at a run that raises in the loop, and at one that
    returns (a matrix of a header alone, read through a namespace that
    has the attributes the body asks for). *)
Lemma output_written_last_or_never_witness :
  (let w := Scenario.disk Scenario.square_wkt Scenario.matrix_csv in
   files (snd (@run_body Scenario.libraries (Scenario.namespace 1) w)) = files w) /\
  (let w := Scenario.disk Scenario.square_wkt Scenario.header_only_csv in
   exists p text evs,
     files (snd (@run_body Scenario.libraries (Scenario.namespace 1) w))
       = <[p := text]> (files w) /\
     trace (snd (@run_body Scenario.libraries (Scenario.namespace 1) w))
       = trace w ++ evs ++ [WriteFile p]).
Proof.
  split; intros w.
  - pose proof (proj1 (@output_written_last_or_never Scenario.libraries w)
                  (Scenario.namespace 1)) as H.
    destruct (@run_body Scenario.libraries (Scenario.namespace 1) w) as [[u|e] w'] eqn:E.
    + vm_compute in E. discriminate.
    + exact (proj1 (H e w' eq_refl)).
  - pose proof (proj2 (proj2 (@output_written_last_or_never Scenario.libraries w))
                  (Scenario.namespace 1)) as H.
    destruct (@run_body Scenario.libraries (Scenario.namespace 1) w) as [[[]|e] w'] eqn:E.
    + destruct (H w' eq_refl) as (p & text & evs & Hf & Ht & _).
      now exists p, text, evs.
    + vm_compute in E. discriminate.
Defined.

Section CommandLineRuns.
Context `{L : Libraries}.

(** C5.  The parser declares four positionals, the last with the
    default 500000, but none is optional: a command line of the three
    paths alone ends the run with exit status 2, the default is never
    taken.  With the fourth token given, the namespace holds it as a
    string under [chunksize], and the paths under the names as the
    parser spells them. *)
Theorem chunksize_is_required_and_a_string
    (b m o : string) (w : world)
    (Hplain : forallb (fun t => negb (option_like t)) [b; m; o] = true) :
  map default parser = [None; None; None; Some (AInt 500000)] /\
  parse_args [b; m; o] = Raise (SystemExit 2) /\
  run [b; m; o] w = (Raise (SystemExit 2), w) /\
  (forall c, option_like c = false ->
     parse_args [b; m; o; c] =
       Ok [("wkt-boundary-file", AStr b); ("mep-matrix-file", AStr m);
           ("output_file", AStr o); ("chunksize", AStr c)] /\
     validate_chunksize (AStr c)
       = Raise (ValueError "'chunksize' must be an integer >=1")).
Proof.
  assert (H3 : parse_args [b; m; o] = Raise (SystemExit 2))
    by now rewrite (parse_args_plain _ Hplain).
  repeat split.
  - exact H3.
  - unfold run. rewrite bind_M. unfold lift. now rewrite H3.
  - rewrite parse_args_plain; [reflexivity|].
    simpl in *. rewrite H. simpl.
    now rewrite !andb_true_r in *.
Qed.

(** No run from a command line produces an output file: on every
    command line and in every world [run] ends in an exception and
    leaves the files as they were. *)
Theorem run_produces_no_output_file (argv : list string) (w : world) :
  exists e w', run argv w = (Raise e, w') /\ files w' = files w.
Proof.
  destruct (run_raises argv w) as (e & w' & H & Hf & _).
  now exists e, w'.
Qed.

End CommandLineRuns.

Lemma chunksize_is_required_and_a_string_witness :
  forallb (fun t => negb (option_like t)) Scenario.argv3 = true /\
  @parse_args Scenario.libraries Scenario.argv3 = Raise (SystemExit 2).
Proof.
  split; [reflexivity|].
  apply (@chunksize_is_required_and_a_string Scenario.libraries
           "boundary.wkt" "matrix.csv" "out.csv"
           (Scenario.disk Scenario.square_wkt Scenario.matrix_csv)).
  reflexivity.
Defined.

(** C4.  The run on a matrix file of a header alone, all four
    positionals given: it ends at line 25 with an attribute error, after
    the two prints; no file is read and [out.csv] does not exist.  The
    chunk size it was given would be refused by [read_csv] as well. *)
Theorem header_only_matrix_run_raises :
  let w := Scenario.disk Scenario.square_wkt Scenario.header_only_csv in
  @run Scenario.libraries (Scenario.argv4 "500000") w =
    (Raise (AttributeError "Namespace" "wkt_boundary_file"),
     {| files := files w;
        trace :=
          [PrintBanner;
           PrintArgs [("wkt-boundary-file", AStr "boundary.wkt");
                      ("mep-matrix-file", AStr "matrix.csv");
                      ("output_file", AStr "out.csv");
                      ("chunksize", AStr "500000")]] |}) /\
  files (snd (@run Scenario.libraries (Scenario.argv4 "500000") w)) !! "out.csv" = None /\
  validate_chunksize (AStr "500000")
    = Raise (ValueError "'chunksize' must be an integer >=1").
Proof. vm_compute. repeat split. Qed.

(** ** Frames *)

Lemma Series_apply_length {A B : Type} (f : A -> result B) (l : list A) (ys : list B) :
  Series_apply f l = Ok ys -> length ys = length l.
Proof.
  revert ys. induction l as [|x l IH]; intros ys; simpl.
  - now intros [= <-].
  - destruct (f x) as [y|e]; simpl; [|discriminate].
    destruct (Series_apply f l) as [ys'|e]; simpl; [|discriminate].
    intros [= <-]. simpl. now rewrite (IH ys').
Qed.

Lemma sequence_length {A : Type} (l : list (result A)) (xs : list A) :
  sequence l = Ok xs -> length xs = length l.
Proof.
  revert xs. induction l as [|r l IH]; intros xs; simpl.
  - now intros [= <-].
  - destruct r as [x|e]; simpl; [|discriminate].
    destruct (sequence l) as [xs'|e]; simpl; [|discriminate].
    intros [= <-]. simpl. now rewrite (IH xs').
Qed.

Lemma lookup_set_column_same (name : string) (vals : list pyval)
    (cols : list (string * list pyval)) :
  lookup_column name (set_column name vals cols) = Some vals.
Proof.
  induction cols as [|[n old] cols IH]; simpl.
  - now rewrite String.eqb_refl.
  - destruct (String.eqb n name) eqn:E; simpl; rewrite E; [reflexivity|exact IH].
Qed.

Lemma lookup_set_column_other (name n : string) (vals : list pyval)
    (cols : list (string * list pyval)) :
  n <> name ->
  lookup_column n (set_column name vals cols) = lookup_column n cols.
Proof.
  intros Hn. induction cols as [|[n' old] cols IH]; simpl.
  - destruct (String.eqb_spec name n); [congruence|reflexivity].
  - destruct (String.eqb_spec n' name) as [->|Hne]; simpl.
    + destruct (String.eqb_spec name n); [congruence|reflexivity].
    + destruct (String.eqb_spec n' n); [reflexivity|exact IH].
Qed.

Lemma names_set_column_fresh (name : string) (vals : list pyval)
    (cols : list (string * list pyval)) :
  lookup_column name cols = None ->
  map fst (set_column name vals cols) = map fst cols ++ [name].
Proof.
  induction cols as [|[n old] cols IH]; simpl; [reflexivity|].
  destruct (String.eqb n name); [discriminate|].
  intros H. simpl. now rewrite IH.
Qed.

Lemma names_set_column_present (name : string) (vals old : list pyval)
    (cols : list (string * list pyval)) :
  lookup_column name cols = Some old ->
  map fst (set_column name vals cols) = map fst cols.
Proof.
  induction cols as [|[n old'] cols IH]; simpl; [discriminate|].
  destruct (String.eqb n name); [reflexivity|].
  intros H. simpl. now rewrite IH.
Qed.

Lemma set_column_twice (name : string) (vals other : list pyval)
    (cols : list (string * list pyval)) :
  set_column name vals (set_column name other cols) = set_column name vals cols.
Proof.
  induction cols as [|[n old] cols IH]; simpl.
  - now rewrite String.eqb_refl.
  - destruct (String.eqb n name) eqn:E; simpl; rewrite E; [reflexivity|].
    now rewrite IH.
Qed.

Lemma lookup_mask_filter (mask : list bool) (n : string)
    (cols : list (string * list pyval)) :
  lookup_column n (map (fun c => (fst c, mask_filter mask (snd c))) cols)
  = mask_filter mask <$> lookup_column n cols.
Proof.
  induction cols as [|[n' vals] cols IH]; simpl; [reflexivity|].
  destruct (String.eqb n' n); [reflexivity|exact IH].
Qed.

Lemma names_mask_filter (mask : list bool) (cols : list (string * list pyval)) :
  map fst (map (fun c => (fst c, mask_filter mask (snd c))) cols) = map fst cols.
Proof. rewrite map_map. reflexivity. Qed.

Lemma lookup_imap_length (k : nat) (n : string) (vals : list pyval)
    (names : list string) :
  forall f : nat -> string -> string * list pyval,
    (forall j name, length (snd (f j name)) = k) ->
    lookup_column n (imap f names) = Some vals ->
    length vals = k.
Proof.
  induction names as [|name names IH]; intros f Hf; simpl; [discriminate|].
  destruct (f 0%nat name) as [n' vals'] eqn:E.
  destruct (String.eqb n' n).
  - intros [= <-]. specialize (Hf 0%nat name). now rewrite E in Hf.
  - apply IH. intros j name'. apply Hf.
Qed.

Lemma lookup_frame_of_length (hd : list string) (start : Z)
    (rows : list (list pyval)) (n : string) (vals : list pyval) :
  lookup_column n (df_columns (frame_of hd start rows)) = Some vals ->
  length vals = length rows.
Proof.
  apply lookup_imap_length. intros j name. simpl. apply length_map.
Qed.

Lemma reader_chunks_head {A : Type} (n : nat) (r : A) (rs : list A) :
  (1 <= n)%nat ->
  exists c cs, reader_chunks n (r :: rs) = (r :: c) :: cs.
Proof.
  intros Hn. destruct n as [|n]; [lia|].
  simpl. eauto.
Qed.

Section Filter.
Context `{L : Libraries}.

Lemma hex_to_poly_polygon (h v : pyval) :
  hex_to_poly h = Ok v -> exists p, v = VPoly p.
Proof.
  unfold hex_to_poly.
  destruct (cell_to_boundary h) as [coords|e]; simpl; [|discriminate].
  destruct (Polygon_new _) as [p|e]; simpl; [|discriminate].
  intros [= <-]. now exists p.
Qed.

(** Called on a polygon, an element of the geometry column, [in_bounds]
    raises: a polygon takes no subscript. *)
Lemma in_bounds_polygon (bounds : geometry) (p : Polygon) :
  in_bounds bounds (VPoly p)
  = Raise (TypeError "'Polygon' object is not subscriptable").
Proof. reflexivity. Qed.

(** Called on a row that has a geometry cell, it is the containment
    test. *)
Lemma in_bounds_row (bounds : geometry) (p : Polygon)
    (names : list string) (cells : list pyval) :
  in_bounds bounds (VRow ("geometry" :: names) (VPoly p :: cells))
  = Ok (VBool (contains bounds p)).
Proof. reflexivity. Qed.

Lemma assign_geometry_ok (df : DataFrame) (ids polys : list pyval) :
  lookup_column "grid_id" (df_columns df) = Some ids ->
  Series_apply hex_to_poly ids = Ok polys ->
  assign_geometry df = Ok (setitem df "geometry" polys).
Proof.
  intros Hids Hdec. unfold assign_geometry, DataFrame_getattr.
  rewrite Hids. simpl. now rewrite Hdec.
Qed.

Lemma process_chunk_type_error (bounds : geometry) (df : DataFrame)
    (ids polys : list pyval) :
  lookup_column "grid_id" (df_columns df) = Some ids ->
  ids <> [] ->
  Series_apply hex_to_poly ids = Ok polys ->
  process_chunk bounds df
  = Raise (TypeError "'Polygon' object is not subscriptable").
Proof.
  intros Hids Hne Hdec. unfold process_chunk.
  rewrite (assign_geometry_ok _ _ _ Hids Hdec). simpl.
  unfold select_in_bounds, DataFrame_getattr. simpl.
  rewrite lookup_set_column_same. simpl.
  destruct ids as [|h ids]; [congruence|].
  simpl in Hdec.
  destruct (hex_to_poly h) as [v|e] eqn:Ev; simpl in Hdec; [|discriminate].
  destruct (Series_apply hex_to_poly ids) as [vs|e]; simpl in Hdec; [|discriminate].
  injection Hdec as <-.
  destruct (hex_to_poly_polygon _ _ Ev) as [p ->].
  reflexivity.
Qed.

(** The body of the loop returns for no frame that has a row. *)
Lemma process_chunk_raises (bounds : geometry) (df : DataFrame) :
  (forall ids, lookup_column "grid_id" (df_columns df) = Some ids -> ids <> []) ->
  exists e, process_chunk bounds df = Raise e.
Proof.
  intros Hne.
  destruct (lookup_column "grid_id" (df_columns df)) as [ids|] eqn:Hids.
  - destruct (Series_apply hex_to_poly ids) as [polys|e] eqn:Hdec.
    + eexists. apply (process_chunk_type_error _ _ ids polys); auto.
    + exists e. unfold process_chunk, assign_geometry, DataFrame_getattr.
      rewrite Hids. simpl. now rewrite Hdec.
  - eexists. unfold process_chunk, assign_geometry, DataFrame_getattr.
    now rewrite Hids.
Qed.

Lemma loop_raises (bounds : geometry) (hd : list string) (start : Z)
    (records : list (result (list pyval))) (n : nat)
    (acc : list DataFrame) (w : world) :
  (1 <= n)%nat ->
  records <> [] ->
  exists e w',
    loop bounds hd start (reader_chunks n records) acc w = (Raise e, w') /\
    files w' = files w.
Proof.
  intros Hn Hrec. destruct records as [|r rs]; [congruence|].
  destruct (reader_chunks_head n r rs Hn) as (c & cs & ->).
  cbn [loop]. rewrite !bind_M. cbn [emit].
  unfold lift at 1.
  destruct (sequence (r :: c)) as [rows|e] eqn:Hseq.
  - rewrite bind_M. unfold lift at 1.
    destruct (process_chunk_raises bounds (frame_of hd start rows)) as [e He].
    + intros ids Hids Hnil. subst ids.
      apply lookup_frame_of_length in Hids.
      apply sequence_length in Hseq. simpl in *. lia.
    + rewrite He. eauto.
  - eauto.
Qed.

(** C1.  A chunk that has a row, with hex identifiers that all decode,
    ends the loop: line 39 hands [in_bounds] the polygons of the
    geometry column, one by one, [in_bounds] subscripts its argument
    with ["geometry"], and a polygon takes no subscript.  No row is
    retained, the run ends in this type error with the files
    untouched. *)
Theorem first_row_ends_the_loop
    (bounds : geometry) (hd : list string) (start : Z)
    (chunk : list (result (list pyval)))
    (pending : list (list (result (list pyval))))
    (acc : list DataFrame) (w : world)
    (rows : list (list pyval)) (ids polys : list pyval)
    (Hrows : sequence chunk = Ok rows)
    (Hids : lookup_column "grid_id" (df_columns (frame_of hd start rows)) = Some ids)
    (Hrow : ids <> [])
    (Hdec : Series_apply hex_to_poly ids = Ok polys) :
  loop bounds hd start (chunk :: pending) acc w =
    (Raise (TypeError "'Polygon' object is not subscriptable"),
     {| files := files w; trace := trace w ++ [ReadChunk (length chunk)] |}).
Proof.
  cbn [loop]. rewrite !bind_M. cbn [emit].
  unfold lift at 1. rewrite Hrows.
  rewrite bind_M. unfold lift at 1.
  now rewrite (process_chunk_type_error _ _ ids polys Hids Hrow Hdec).
Qed.

(** Under no chunk size does the loop yield rows: for a matrix with a
    record or more, whatever the two positive chunk sizes, the loop over
    the reader's chunks raises in the first chunk, both times, and the
    files stay as they were. *)
Theorem no_chunk_size_yields_rows
    (bounds : geometry) (hd : list string)
    (records : list (result (list pyval))) (c1 c2 : nat) (w : world)
    (Hc1 : (1 <= c1)%nat) (Hc2 : (1 <= c2)%nat)
    (Hrec : records <> []) :
  (exists e w',
      loop bounds hd 0 (reader_chunks c1 records) [] w = (Raise e, w') /\
      files w' = files w) /\
  (exists e w',
      loop bounds hd 0 (reader_chunks c2 records) [] w = (Raise e, w') /\
      files w' = files w).
Proof. split; now apply loop_raises. Qed.

End Filter.

Lemma first_row_ends_the_loop_witness :
  let bounds := {| Scenario.xmin := 0; Scenario.ymin := 0; Scenario.xmax := 10; Scenario.ymax := 10 |} in
  let w := Scenario.disk Scenario.square_wkt Scenario.matrix_csv in
  @loop Scenario.libraries bounds ["grid_id"; "pop"] 0
        [[Ok [VStr "H1"; VInt 10]]; [Ok [VStr "H2"; VInt 20]]] [] w =
    (Raise (TypeError "'Polygon' object is not subscriptable"),
     {| files := files w; trace := trace w ++ [ReadChunk 1] |}).
Proof.
  intros bounds w.
  apply (@first_row_ends_the_loop Scenario.libraries bounds ["grid_id"; "pop"] 0
           [Ok [VStr "H1"; VInt 10]] [[Ok [VStr "H2"; VInt 20]]] [] w
           [[VStr "H1"; VInt 10]] [VStr "H1"]
           [VPoly {| exterior := close_ring (map swap_latlng Scenario.H1) |}]).
  - reflexivity.
  - reflexivity.
  - discriminate.
  - vm_compute. reflexivity.
Defined.

Lemma no_chunk_size_yields_rows_witness :
  let bounds := {| Scenario.xmin := 0; Scenario.ymin := 0; Scenario.xmax := 10; Scenario.ymax := 10 |} in
  let w := Scenario.disk Scenario.square_wkt Scenario.matrix_csv in
  let records := [Ok [VStr "H1"; VInt 10]; Ok [VStr "H2"; VInt 20]] in
  (exists e w',
      @loop Scenario.libraries bounds ["grid_id"; "pop"] 0 (reader_chunks 1 records) [] w
        = (Raise e, w') /\ files w' = files w) /\
  (exists e w',
      @loop Scenario.libraries bounds ["grid_id"; "pop"] 0 (reader_chunks 2 records) [] w
        = (Raise e, w') /\ files w' = files w).
Proof.
  intros bounds w records.
  apply (@no_chunk_size_yields_rows Scenario.libraries bounds ["grid_id"; "pop"]
           records 1 2 w).
  - lia.
  - lia.
  - discriminate.
Defined.

(** The matrix of two rows, H1 inside the square and H2 outside,
    chunk size 1.  From the command line the run ends at line
    25; with the attributes the body asks for, it ends in the first
    chunk, for chunk size 1 as for chunk size 2. *)
Example scenario_command_line :
  fst (@run Scenario.libraries (Scenario.argv4 "1") (Scenario.disk Scenario.square_wkt Scenario.matrix_csv))
  = Raise (AttributeError "Namespace" "wkt_boundary_file").
Proof. vm_compute. reflexivity. Qed.

Example scenario_body :
  let w := Scenario.disk Scenario.square_wkt Scenario.matrix_csv in
  (let r := @run_body Scenario.libraries (Scenario.namespace 1) w in
   fst r = Raise (TypeError "'Polygon' object is not subscriptable") /\
   files (snd r) !! "out.csv" = None /\
   trace (snd r) = [PrintBanner; PrintArgs (Scenario.namespace 1);
                    OpenRead "boundary.wkt"; OpenRead "matrix.csv"; ReadChunk 1]) /\
  (let r := @run_body Scenario.libraries (Scenario.namespace 2) w in
   fst r = Raise (TypeError "'Polygon' object is not subscriptable") /\
   files (snd r) !! "out.csv" = None /\
   trace (snd r) = [PrintBanner; PrintArgs (Scenario.namespace 2);
                    OpenRead "boundary.wkt"; OpenRead "matrix.csv"; ReadChunk 2]).
Proof. vm_compute. repeat split. Qed.



(** ** What a retained row holds *)

Lemma union_names_absorb (seen names : list string) :
  (forall n, In n names -> In n seen) ->
  union_names seen names = seen.
Proof.
  induction names as [|n names IH]; intros Hin; simpl; [reflexivity|].
  destruct (existsb (String.eqb n) seen) eqn:E.
  - apply IH. intros n' Hn'. apply Hin. now right.
  - exfalso. apply Bool.not_true_iff_false in E. apply E.
    apply existsb_exists. exists n. split; [apply Hin; now left|].
    apply String.eqb_refl.
Qed.

Lemma union_names_fresh (names : list string) :
  forall seen,
    NoDup names -> (forall n, In n names -> ~ In n seen) ->
    union_names seen names = seen ++ names.
Proof.
  induction names as [|n names IH]; intros seen Hnd Hdis; simpl.
  - now rewrite app_nil_r.
  - apply NoDup_cons in Hnd as [Hn Hnd].
    destruct (existsb (String.eqb n) seen) eqn:E.
    + exfalso. apply existsb_exists in E as (n' & Hin & Heq).
      apply String.eqb_eq in Heq. subst n'.
      apply (Hdis n); [now left|assumption].
    + rewrite IH; [now rewrite <- app_assoc|assumption|].
      intros n' Hn' Hin. apply in_app_or in Hin as [Hin|[<-|[]]].
      * apply (Hdis n'); [now right|assumption].
      * apply Hn. now apply list_elem_of_In.
Qed.

Lemma fold_union_same (names : list string) (objs : list DataFrame) :
  Forall (fun df => column_names df = names) objs ->
  fold_left (fun seen df => union_names seen (column_names df)) objs names = names.
Proof.
  induction 1 as [|df objs Hdf _ IH]; simpl; [reflexivity|].
  rewrite Hdf, union_names_absorb; auto.
Qed.

Lemma lookup_column_tabulate (g : string -> list pyval)
    (names : list string) (n : string) :
  In n names ->
  lookup_column n (map (fun m => (m, g m)) names) = Some (g n).
Proof.
  induction names as [|n' names IH]; simpl; [contradiction|].
  destruct (String.eqb_spec n' n) as [->|Hne]; [reflexivity|].
  intros [Hn|Hn]; [congruence|auto].
Qed.

(** Frames that have the same column names concatenate to a frame of
    those names; each column and the row labels are the frames' ones,
    one after another. *)
Lemma concat_same_columns (names : list string) (objs : list DataFrame) :
  objs <> [] ->
  NoDup names ->
  Forall (fun df => column_names df = names) objs ->
  exists result,
    concat objs = Ok result /\
    column_names result = names /\
    df_index result = List.concat (map df_index objs) /\
    forall n, In n names ->
      lookup_column n (df_columns result) =
        Some (List.concat
                (map (fun df => from_option id [] (lookup_column n (df_columns df))) objs)).
Proof.
  intros Hne Hnd Hall.
  destruct objs as [|df objs]; [congruence|].
  unfold concat. eexists. split; [reflexivity|].
  assert (Hnames :
    fold_left (fun seen df0 => union_names seen (column_names df0)) (df :: objs) []
    = names).
  { simpl. pose proof Hall as Hall'. apply Forall_cons in Hall' as [Hdf Hrest].
    rewrite Hdf, union_names_fresh; [|assumption|intros ? ? []].
    simpl. now apply fold_union_same. }
  rewrite Hnames. cbn [df_index df_columns column_names].
  split; [|split; [reflexivity|]].
  - unfold column_names. cbn [df_columns]. rewrite map_map. simpl. apply map_id.
  - intros n Hn. clear Hnames Hnd.
    assert (Hcols : forall df0, In df0 (df :: objs) ->
              match lookup_column n (df_columns df0) with
              | Some vals => vals
              | None => repeat (VFloat nan) (length (df_index df0))
              end = from_option id [] (lookup_column n (df_columns df0))).
    { intros df0 Hin. rewrite Forall_forall in Hall.
      destruct (lookup_column n (df_columns df0)) eqn:E; [reflexivity|].
      exfalso. specialize (Hall df0 ltac:(now apply list_elem_of_In)).
      simpl in Hall. subst names. unfold column_names in Hn.
      clear -E Hn. induction (df_columns df0) as [|[n' v] cols IH]; simpl in *.
      - contradiction.
      - destruct (String.eqb_spec n' n); [discriminate|].
        destruct Hn as [Hn|Hn]; [congruence|auto]. }
    rewrite (lookup_column_tabulate _ _ _ Hn).
    now rewrite (map_ext_in _ _ _ Hcols).
Qed.

Lemma transpose_length (n : nat) (cols : list (list pyval)) :
  length (transpose n cols) = n.
Proof.
  revert cols. induction n as [|n IH]; intros cols; simpl; [reflexivity|].
  now rewrite IH.
Qed.

Section PassThrough.
Context `{L : Libraries}.

(** The text written with [index=False]: a field per column in the
    header line and in the line of each row, and no field for the row
    label. *)
Lemma to_csv_text_no_index (df : DataFrame) :
  to_csv_text df false =
    String.concat ""
      (map join_line
         (map (fun n => render_cell (VStr n)) (column_names df)
          :: map (map render_cell)
               (transpose (length (df_index df)) (map snd (df_columns df))))).
Proof.
  unfold to_csv_text. cbn iota. do 3 f_equal.
  rewrite <- (snd_zip (df_index df)
                (transpose (length (df_index df)) (map snd (df_columns df)))) at 2
    by (rewrite transpose_length; lia).
  generalize (zip (df_index df)
                (transpose (length (df_index df)) (map snd (df_columns df)))).
  intros l. induction l as [|lr l IH]; [reflexivity|].
  simpl in *. f_equal. exact IH.
Qed.

(** C9.  A frame that already has a column [geometry] keeps its column
    names at line 38, and the column then holds the polygons derived
    from [grid_id]: the values it held are gone (whatever they were, the
    frame after line 38 is the same), also in the rows a mask retains.
    The other columns are as they were. *)
Theorem geometry_column_is_overwritten
    (df : DataFrame) (old ids polys : list pyval)
    (Hold : lookup_column "geometry" (df_columns df) = Some old)
    (Hids : lookup_column "grid_id" (df_columns df) = Some ids)
    (Hdec : Series_apply hex_to_poly ids = Ok polys) :
  exists df',
    assign_geometry df = Ok df' /\
    column_names df' = column_names df /\
    lookup_column "geometry" (df_columns df') = Some polys /\
    (forall n, n <> "geometry" ->
       lookup_column n (df_columns df') = lookup_column n (df_columns df)) /\
    (forall other, assign_geometry (setitem df "geometry" other) = Ok df') /\
    (forall mask kept,
       getitem_bool df' mask = Ok kept ->
       lookup_column "geometry" (df_columns kept) = Some (mask_filter mask polys)).
Proof.
  exists (setitem df "geometry" polys).
  split; [now apply (assign_geometry_ok df ids polys)|].
  split; [apply (names_set_column_present _ _ old), Hold|].
  split; [apply lookup_set_column_same|].
  split; [intros n Hn; now apply lookup_set_column_other|].
  split.
  - intros other.
    rewrite (assign_geometry_ok _ ids polys); [| |assumption].
    + unfold setitem. simpl. now rewrite set_column_twice.
    + simpl. rewrite lookup_set_column_other; [assumption|discriminate].
  - intros mask kept. unfold getitem_bool.
    destruct (_ =? _)%nat; [|discriminate].
    intros [= <-]. simpl.
    now rewrite lookup_mask_filter, lookup_set_column_same.
Qed.

(** The frame operations of lines 38-42, for any boolean mask.  For a
    frame without a column [geometry]: line 38
    adds [geometry] as the last column and leaves the others; the rows a
    boolean mask retains hold, in every input column, the cells they
    held, and in [geometry] their polygons; frames of these columns
    concatenate to a frame of these columns; and the text written with
    [index=False] has a field per column and none for the row label. *)
Theorem retained_rows_pass_through
    (df : DataFrame) (ids polys : list pyval) (mask : list bool)
    (kept : DataFrame)
    (Hnames : NoDup (column_names df ++ ["geometry"]))
    (Hids : lookup_column "grid_id" (df_columns df) = Some ids)
    (Hdec : Series_apply hex_to_poly ids = Ok polys)
    (Hfresh : lookup_column "geometry" (df_columns df) = None)
    (Hkept : getitem_bool (setitem df "geometry" polys) mask = Ok kept) :
  assign_geometry df = Ok (setitem df "geometry" polys) /\
  column_names kept = column_names df ++ ["geometry"] /\
  df_index kept = mask_filter mask (df_index df) /\
  (forall n vals,
     lookup_column n (df_columns df) = Some vals ->
     lookup_column n (df_columns kept) = Some (mask_filter mask vals)) /\
  lookup_column "geometry" (df_columns kept) = Some (mask_filter mask polys) /\
  (forall objs,
     objs <> [] ->
     Forall (fun k => column_names k = column_names kept) objs ->
     exists result,
       concat objs = Ok result /\
       column_names result = column_names df ++ ["geometry"] /\
       (forall n, In n (column_names df ++ ["geometry"]) ->
          lookup_column n (df_columns result) =
            Some (List.concat
                    (map (fun k => from_option id [] (lookup_column n (df_columns k)))
                         objs))) /\
       to_csv_text result false =
         String.concat ""
           (map join_line
              (map (fun n => render_cell (VStr n)) (column_names df ++ ["geometry"])
               :: map (map render_cell)
                    (transpose (length (df_index result))
                               (map snd (df_columns result)))))).
Proof.
  assert (Hk : column_names kept = column_names df ++ ["geometry"]).
  { revert Hkept. unfold getitem_bool.
    destruct (_ =? _)%nat; [|discriminate]. intros [= <-].
    unfold column_names. simpl. rewrite names_mask_filter.
    now apply names_set_column_fresh. }
  split; [now apply (assign_geometry_ok df ids polys)|].
  split; [exact Hk|].
  revert Hkept. unfold getitem_bool.
  destruct (_ =? _)%nat; [|discriminate]. intros [= <-].
  split; [reflexivity|].
  split.
  { intros n vals Hn. simpl. rewrite lookup_mask_filter.
    rewrite lookup_set_column_other; [now rewrite Hn|].
    intros ->. congruence. }
  split.
  { simpl. now rewrite lookup_mask_filter, lookup_set_column_same. }
  intros objs Hne Hall. rewrite Hk in Hall.
  destruct (concat_same_columns _ objs Hne Hnames Hall)
    as (result & Hc & Hn & _ & Hcols).
  exists result. repeat split; try assumption.
  now rewrite to_csv_text_no_index, Hn.
Qed.

End PassThrough.

Lemma geometry_column_is_overwritten_witness :
  exists df',
    @assign_geometry Scenario.libraries Scenario.geometry_frame = Ok df' /\
    column_names df' = ["grid_id"; "geometry"; "pop"] /\
    lookup_column "geometry" (df_columns df') = Some Scenario.polygons /\
    lookup_column "pop" (df_columns df') = Some [VInt 10; VInt 20].
Proof.
  destruct (@geometry_column_is_overwritten Scenario.libraries Scenario.geometry_frame
              [VStr "POINT (1 1)"; VStr "POINT (2 2)"]
              [VStr "H1"; VStr "H2"] Scenario.polygons)
    as (df' & Hassign & Hnames & Hgeom & Hother & _).
  - reflexivity.
  - reflexivity.
  - vm_compute. reflexivity.
  - exists df'. split; [exact Hassign|]. split; [exact Hnames|].
    split; [exact Hgeom|]. rewrite Hother; [reflexivity|discriminate].
Defined.

(** On a matrix that has a column [geometry], line 38 appends no
    column, and the column's cells do not pass through. *)
Lemma geometry_named_column_not_passed_through :
  let df' := setitem Scenario.geometry_frame "geometry" Scenario.polygons in
  @assign_geometry Scenario.libraries Scenario.geometry_frame = Ok df' /\
  column_names df' = ["grid_id"; "geometry"; "pop"] /\
  column_names df' <> column_names Scenario.geometry_frame ++ ["geometry"] /\
  lookup_column "geometry" (df_columns Scenario.geometry_frame)
    = Some [VStr "POINT (1 1)"; VStr "POINT (2 2)"] /\
  lookup_column "geometry" (df_columns df') = Some Scenario.polygons /\
  lookup_column "geometry" (df_columns df')
    <> lookup_column "geometry" (df_columns Scenario.geometry_frame).
Proof.
  vm_compute. repeat split; try discriminate.
Qed.

Lemma retained_rows_pass_through_witness :
  let kept :=
    {| df_index := [0];
       df_columns := [("grid_id", [VStr "H1"]); ("pop", [VInt 10]);
                      ("geometry",
                       [VPoly {| exterior := close_ring (map swap_latlng Scenario.H1) |}])] |} in
  @assign_geometry Scenario.libraries Scenario.chunk_frame
    = Ok (setitem Scenario.chunk_frame "geometry" Scenario.polygons) /\
  getitem_bool (setitem Scenario.chunk_frame "geometry" Scenario.polygons) [true; false]
    = Ok kept /\
  column_names kept = column_names Scenario.chunk_frame ++ ["geometry"] /\
  lookup_column "pop" (df_columns kept) = Some (mask_filter [true; false] [VInt 10; VInt 20]).
Proof.
  intros kept.
  assert (Hkept :
    getitem_bool (setitem Scenario.chunk_frame "geometry" Scenario.polygons) [true; false]
    = Ok kept) by (vm_compute; reflexivity).
  destruct (@retained_rows_pass_through Scenario.libraries Scenario.chunk_frame
              [VStr "H1"; VStr "H2"] Scenario.polygons [true; false] kept)
    as (Hassign & Hnames & _ & Hcols & _).
  - apply (bool_decide_unpack _). vm_compute. exact I.
  - reflexivity.
  - vm_compute. reflexivity.
  - reflexivity.
  - exact Hkept.
  - split; [exact Hassign|]. split; [exact Hkept|]. split; [exact Hnames|].
    apply Hcols. reflexivity.
Defined.

(** * Further properties of the script *)

(** ** The namespace and the attributes [run] reads *)

Section Namespaces.
Context `{L : Libraries}.

(** X1.  On a namespace that [parse_args] returns, the four values are
    strings, found under the names as the parser spells them: of the
    four attributes [run] reads, [output_file] and [chunksize] are
    there, [wkt_boundary_file] and [mep_matrix_file] are not.  Without
    option-like tokens the values are the tokens, in order. *)
Theorem parsed_namespace_attributes
    (argv : list string) (args : Namespace)
    (Hparse : parse_args argv = Ok args) :
  exists b m o c,
    getattr args "wkt-boundary-file" = Ok (AStr b) /\
    getattr args "mep-matrix-file" = Ok (AStr m) /\
    getattr args "output_file" = Ok (AStr o) /\
    getattr args "chunksize" = Ok (AStr c) /\
    getattr args "wkt_boundary_file"
      = Raise (AttributeError "Namespace" "wkt_boundary_file") /\
    getattr args "mep_matrix_file"
      = Raise (AttributeError "Namespace" "mep_matrix_file") /\
    (forallb (fun t => negb (option_like t)) argv = true -> argv = [b; m; o; c]).
Proof.
  revert Hparse. unfold parse_args, positionals.
  destruct (forallb (fun t => negb (option_like t)) argv) eqn:Hplain.
  - simpl.
    destruct argv as [|b [|m [|o [|c [|x argv]]]]]; try discriminate.
    intros [= <-]. exists b, m, o, c. repeat split.
  - destruct (argparse_options argv) as [values|e]; [|discriminate]. simpl.
    destruct values as [|b [|m [|o [|c [|x values]]]]]; try discriminate.
    intros [= <-]. exists b, m, o, c. repeat split. discriminate.
Qed.

End Namespaces.

Lemma parsed_namespace_attributes_witness :
  exists b m o c,
    getattr [("wkt-boundary-file", AStr "boundary.wkt");
             ("mep-matrix-file", AStr "matrix.csv");
             ("output_file", AStr "out.csv"); ("chunksize", AStr "7")]
            "chunksize" = Ok (AStr c) /\
    Scenario.argv4 "7" = [b; m; o; c].
Proof.
  destruct (@parsed_namespace_attributes Scenario.libraries (Scenario.argv4 "7")
              [("wkt-boundary-file", AStr "boundary.wkt");
               ("mep-matrix-file", AStr "matrix.csv");
               ("output_file", AStr "out.csv"); ("chunksize", AStr "7")])
    as (b & m & o & c & _ & _ & _ & Hc & _ & _ & Hargv).
  - reflexivity.
  - exists b, m, o, c. split; [exact Hc|]. apply Hargv. reflexivity.
Defined.

(** ** The nested functions *)

Lemma Series_apply_app {A B : Type} (f : A -> result B) (l1 l2 : list A)
    (ys : list B) :
  Series_apply f l1 = Ok ys ->
  Series_apply f (l1 ++ l2) = (zs ← Series_apply f l2; Ok (ys ++ zs)).
Proof.
  revert ys. induction l1 as [|x l1 IH]; intros ys; simpl.
  - intros [= <-]. destruct (Series_apply f l2); reflexivity.
  - destruct (f x) as [y|e]; simpl; [|discriminate].
    destruct (Series_apply f l1) as [ys'|e]; simpl; [|discriminate].
    intros [= <-]. rewrite (IH ys' eq_refl).
    destruct (Series_apply f l2); reflexivity.
Qed.

(** [Series.apply] raises the exception of the first value its function
    raises on, having returned on the values before it. *)
Lemma Series_apply_raise {A B : Type} (f : A -> result B) (l : list A) (e : exn) :
  Series_apply f l = Raise e <->
  exists l1 x l2 ys,
    l = l1 ++ x :: l2 /\ Series_apply f l1 = Ok ys /\ f x = Raise e.
Proof.
  split.
  - induction l as [|x l IH]; simpl; [discriminate|].
    destruct (f x) as [y|e'] eqn:Ex; simpl.
    + destruct (Series_apply f l) as [ys|e'] eqn:El; simpl; [discriminate|].
      intros [= ->]. destruct (IH eq_refl) as (l1 & x' & l2 & ys & -> & H1 & Hx).
      exists (x :: l1), x', l2, (y :: ys). simpl. rewrite Ex, H1. auto.
    + intros [= ->]. exists [], x, l, []. auto.
  - intros (l1 & x & l2 & ys & -> & H1 & Hx).
    rewrite (Series_apply_app f l1 (x :: l2) ys H1). simpl. now rewrite Hx.
Qed.

Lemma Series_apply_Forall2 {A B : Type} (f : A -> result B) (l : list A)
    (ys : list B) :
  Series_apply f l = Ok ys <-> Forall2 (fun x y => f x = Ok y) l ys.
Proof.
  split.
  - revert ys. induction l as [|x l IH]; intros ys; simpl.
    + intros [= <-]. constructor.
    + destruct (f x) as [y|e] eqn:Ex; simpl; [|discriminate].
      destruct (Series_apply f l) as [ys'|e]; simpl; [|discriminate].
      intros [= <-]. constructor; auto.
  - induction 1 as [|x y l ys Hx _ IH]; simpl; [reflexivity|].
    now rewrite Hx, IH.
Qed.

Section NestedFunctions.
Context `{L : Libraries}.

(** X3.  Line 38 fails in two ways: the frame has no column [grid_id]
    (attribute error), or a hex identifier does not decode; then the
    exception is the one [hex_to_poly] raises on the first such
    identifier, in row order, the ones before it having decoded. *)
Theorem assign_geometry_raises_iff (df : DataFrame) (e : exn) :
  assign_geometry df = Raise e <->
  (lookup_column "grid_id" (df_columns df) = None /\
   e = AttributeError "DataFrame" "grid_id") \/
  (exists ids l1 x l2 ys,
      lookup_column "grid_id" (df_columns df) = Some ids /\
      ids = l1 ++ x :: l2 /\
      Series_apply hex_to_poly l1 = Ok ys /\
      hex_to_poly x = Raise e).
Proof.
  unfold assign_geometry, DataFrame_getattr.
  destruct (lookup_column "grid_id" (df_columns df)) as [ids|]; simpl.
  - destruct (Series_apply hex_to_poly ids) as [polys|e'] eqn:Ea; simpl.
    + split; [discriminate|].
      intros [[? _]|(ids' & l1 & x & l2 & ys & [= <-] & Hids & H1 & Hx)];
        [discriminate|].
      assert (Hr : Series_apply hex_to_poly ids = Raise e)
        by (apply Series_apply_raise; now exists l1, x, l2, ys).
      congruence.
    + split.
      * intros [= ->]. right.
        apply Series_apply_raise in Ea as (l1 & x & l2 & ys & -> & H1 & Hx).
        now exists (l1 ++ x :: l2), l1, x, l2, ys.
      * intros [[? _]|(ids' & l1 & x & l2 & ys & [= <-] & Hids & H1 & Hx)];
          [discriminate|].
        assert (Hr : Series_apply hex_to_poly ids = Raise e)
          by (apply Series_apply_raise; now exists l1, x, l2, ys).
        congruence.
  - split.
    + intros [= <-]. now left.
    + intros [[_ ->]|(ids & ? & ? & ? & ? & ? & _)]; [reflexivity|discriminate].
Qed.

(** X4.  When line 38 returns, the frame has its row labels and its
    other columns as before, and its [geometry] column holds one value
    per row: the polygon [hex_to_poly] returns for the [grid_id] of that
    row. *)
Theorem assign_geometry_per_row (df df' : DataFrame)
    (Hassign : assign_geometry df = Ok df') :
  exists ids polys,
    lookup_column "grid_id" (df_columns df) = Some ids /\
    lookup_column "geometry" (df_columns df') = Some polys /\
    Forall2 (fun id v => exists p, v = VPoly p /\ hex_to_poly id = Ok (VPoly p))
            ids polys /\
    df_index df' = df_index df /\
    (forall n, n <> "geometry" ->
       lookup_column n (df_columns df') = lookup_column n (df_columns df)).
Proof.
  revert Hassign. unfold assign_geometry, DataFrame_getattr.
  destruct (lookup_column "grid_id" (df_columns df)) as [ids|]; simpl;
    [|discriminate].
  destruct (Series_apply hex_to_poly ids) as [polys|e] eqn:Ea; simpl;
    [|discriminate].
  intros [= <-]. exists ids, polys. split; [reflexivity|].
  split; [apply lookup_set_column_same|].
  split.
  - apply Series_apply_Forall2 in Ea.
    induction Ea as [|id v ids polys Hv _ IH]; constructor; [|exact IH].
    destruct (hex_to_poly_polygon _ _ Hv) as [p ->]. now exists p.
  - split; [reflexivity|].
    intros n Hn. now apply lookup_set_column_other.
Qed.

End NestedFunctions.

Lemma assign_geometry_per_row_witness :
  exists ids polys,
    lookup_column "grid_id" (df_columns Scenario.chunk_frame) = Some ids /\
    lookup_column "geometry"
      (df_columns (setitem Scenario.chunk_frame "geometry" Scenario.polygons))
      = Some polys /\
    Forall2 (fun id v => exists p, v = VPoly p /\
                         @hex_to_poly Scenario.libraries id = Ok (VPoly p))
            ids polys.
Proof.
  destruct (@assign_geometry_per_row Scenario.libraries Scenario.chunk_frame
              (setitem Scenario.chunk_frame "geometry" Scenario.polygons))
    as (ids & polys & Hids & Hgeom & Hall & _).
  - vm_compute. reflexivity.
  - now exists ids, polys.
Defined.

(** ** The body of [run], step by step *)

Lemma bind_Ok_inv {A B : Type} (m : M A) (f : A -> M B) (w w' : world) (b : B) :
  (m ≫= f) w = (Ok b, w') ->
  exists a w1, m w = (Ok a, w1) /\ f a w1 = (Ok b, w').
Proof.
  rewrite bind_M. destruct (m w) as [[a|e] w1]; [|discriminate].
  intros H. now exists a, w1.
Qed.

Lemma lift_Ok_inv {A : Type} (r : result A) (w w' : world) (a : A) :
  lift r w = (Ok a, w') -> r = Ok a /\ w' = w.
Proof. unfold lift. now intros [= -> ->]. Qed.

Lemma emit_inv (e : event) (w w' : world) (u : unit) :
  emit e w = (Ok u, w') ->
  w' = {| files := files w; trace := trace w ++ [e] |}.
Proof. unfold emit. now intros [= <-]. Qed.

Lemma open_read_Ok_inv (path : argval) (w w' : world) (text : string) :
  open_read path w = (Ok text, w') ->
  exists p,
    path = AStr p /\ files w !! p = Some text /\
    w' = {| files := files w; trace := trace w ++ [OpenRead p] |}.
Proof.
  destruct path as [p|z]; simpl; [|discriminate].
  intros H. apply bind_Ok_inv in H as (u & w1 & H1 & H).
  apply emit_inv in H1. subst w1. unfold read_file in H. simpl in H.
  destruct (files w !! p) as [t|] eqn:E; [|discriminate].
  injection H as -> <-. now exists p.
Qed.

Lemma lookup_imap_none (n : string) (names : list string) :
  forall f : nat -> string -> string * list pyval,
    (forall j name, fst (f j name) = name) ->
    ~ In n names ->
    lookup_column n (imap f names) = None.
Proof.
  induction names as [|name names IH]; intros f Hf Hn; simpl; [reflexivity|].
  destruct (f 0%nat name) as [n' vals] eqn:E.
  assert (n' = name) as -> by (specialize (Hf 0%nat name); now rewrite E in Hf).
  destruct (String.eqb_spec name n) as [->|Hne].
  - exfalso. apply Hn. now left.
  - apply IH; [intros j name'; apply Hf|].
    intros Hin. apply Hn. now right.
Qed.

Section Body.
Context `{L : Libraries}.

(** X5.  A chunk size that is a string, as every chunk size from the
    command line is, ends the body of [run] at [read_csv] (line 37) with
    a value error: the boundary has been read by then, the matrix file
    is not opened, nothing is written. *)
Theorem string_chunksize_ends_at_read_csv
    (args : Namespace) (w : world) (p text c : string)
    (bounds : geometry) (mep_matrix_file : argval)
    (Hwkt : getattr args "wkt_boundary_file" = Ok (AStr p))
    (Hfile : files w !! p = Some text)
    (Hloads : wkt_loads text = Ok bounds)
    (Hmep : getattr args "mep_matrix_file" = Ok mep_matrix_file)
    (Hchunk : getattr args "chunksize" = Ok (AStr c)) :
  run_body args w =
    (Raise (ValueError "'chunksize' must be an integer >=1"),
     {| files := files w;
        trace := trace w ++ [PrintBanner; PrintArgs args; OpenRead p] |}).
Proof.
  unfold run_body, mbind, M_bind, lift, emit. simpl.
  rewrite Hwkt. unfold open_read, mbind, M_bind, emit, read_file. simpl.
  rewrite Hfile, Hloads, Hmep, Hchunk.
  unfold read_csv, mbind, M_bind, lift. simpl.
  now rewrite <- !app_assoc.
Qed.

(** X6.  A path that names no file: when it is the boundary path, the
    body of [run] ends with [FileNotFoundError] at line 25; when it is
    the matrix path (boundary read, chunk size an integer of 1 or more),
    it ends with [FileNotFoundError] at line 37.  Either way no chunk
    is read and nothing is written. *)
Theorem missing_input_file
    (args : Namespace) (w : world) (p : string)
    (Hwkt : getattr args "wkt_boundary_file" = Ok (AStr p)) :
  (files w !! p = None ->
   run_body args w =
     (Raise (FileNotFoundError p),
      {| files := files w;
         trace := trace w ++ [PrintBanner; PrintArgs args; OpenRead p] |})) /\
  (forall text bounds m z,
     files w !! p = Some text ->
     wkt_loads text = Ok bounds ->
     getattr args "mep_matrix_file" = Ok (AStr m) ->
     getattr args "chunksize" = Ok (AInt z) ->
     1 <= z ->
     files w !! m = None ->
     run_body args w =
       (Raise (FileNotFoundError m),
        {| files := files w;
           trace := trace w ++ [PrintBanner; PrintArgs args;
                                OpenRead p; OpenRead m] |})).
Proof.
  split.
  - intros Hnone.
    unfold run_body, mbind, M_bind, lift, emit. simpl.
    rewrite Hwkt. unfold open_read, mbind, M_bind, emit, read_file. simpl.
    rewrite Hnone. now rewrite <- !app_assoc.
  - intros text bounds m z Hfile Hloads Hmep Hchunk Hz Hnone.
    unfold run_body, mbind, M_bind, lift, emit. simpl.
    rewrite Hwkt. unfold open_read, mbind, M_bind, emit, read_file. simpl.
    rewrite Hfile, Hloads, Hmep, Hchunk.
    unfold read_csv, mbind, M_bind, lift, validate_chunksize. simpl.
    destruct (Z.leb_spec 1 z); [|lia]. simpl.
    unfold open_read, mbind, M_bind, emit, read_file. simpl.
    rewrite Hnone. now rewrite <- !app_assoc.
Qed.

(** X7.  A matrix without a column [grid_id]: the first chunk read,
    whatever its rows and also when it has none, ends the loop with an
    attribute error at line 38. *)
Theorem missing_grid_id_column
    (bounds : geometry) (hd : list string) (start : Z)
    (chunk : list (result (list pyval)))
    (pending : list (list (result (list pyval))))
    (acc : list DataFrame) (w : world) (rows : list (list pyval))
    (Hrows : sequence chunk = Ok rows)
    (Hhd : ~ In "grid_id" hd) :
  loop bounds hd start (chunk :: pending) acc w =
    (Raise (AttributeError "DataFrame" "grid_id"),
     {| files := files w; trace := trace w ++ [ReadChunk (length chunk)] |}).
Proof.
  cbn [loop]. rewrite !bind_M. cbn [emit].
  unfold lift at 1. rewrite Hrows.
  rewrite bind_M. unfold lift at 1.
  assert (Hnone : lookup_column "grid_id" (df_columns (frame_of hd start rows)) = None).
  { unfold frame_of. cbn [df_columns].
    apply lookup_imap_none; [intros j name; reflexivity|assumption]. }
  unfold process_chunk, assign_geometry, DataFrame_getattr.
  now rewrite Hnone.
Qed.

(** X8.  The body of [run] returns for a matrix file without records
    only: the boundary file was read and is well-known text, the chunk
    size is an integer of 1 or more, the matrix file was read and has a
    header and no record.  The one file it has then changed is the one
    [output_file] names. *)
Theorem body_returns_only_without_records
    (args : Namespace) (w w' : world)
    (Hrun : run_body args w = (Ok tt, w')) :
  exists p text bounds m mtext hd z o out,
    getattr args "wkt_boundary_file" = Ok (AStr p) /\
    files w !! p = Some text /\
    wkt_loads text = Ok bounds /\
    getattr args "mep_matrix_file" = Ok (AStr m) /\
    files w !! m = Some mtext /\
    getattr args "chunksize" = Ok (AInt z) /\ 1 <= z /\
    csv_parse mtext = Ok (hd, []) /\
    getattr args "output_file" = Ok (AStr o) /\
    files w' = <[o := out]> (files w).
Proof.
  unfold run_body in Hrun.
  apply bind_Ok_inv in Hrun as (u1 & w1 & H1 & Hrun). apply emit_inv in H1.
  apply bind_Ok_inv in Hrun as (u2 & w2 & H2 & Hrun). apply emit_inv in H2.
  apply bind_Ok_inv in Hrun as (path & w3 & H3 & Hrun).
  apply lift_Ok_inv in H3 as [Hwkt ->].
  apply bind_Ok_inv in Hrun as (text & w4 & H4 & Hrun).
  apply open_read_Ok_inv in H4 as (p & -> & Hfile & Hw4).
  apply bind_Ok_inv in Hrun as (bounds & w5 & H5 & Hrun).
  apply lift_Ok_inv in H5 as [Hloads ->].
  apply bind_Ok_inv in Hrun as (mpath & w6 & H6 & Hrun).
  apply lift_Ok_inv in H6 as [Hmep ->].
  apply bind_Ok_inv in Hrun as (cs & w7 & H7 & Hrun).
  apply lift_Ok_inv in H7 as [Hchunk ->].
  apply bind_Ok_inv in Hrun as (reader & w8 & H8 & Hrun).
  unfold read_csv in H8.
  apply bind_Ok_inv in H8 as (n & w8' & Hn & H8).
  apply lift_Ok_inv in Hn as [Hn ->].
  destruct cs as [c|z]; [discriminate|]. simpl in Hn.
  destruct (Z.leb_spec 1 z) as [Hz|]; [|discriminate]. injection Hn as <-.
  destruct mpath as [m|zz]; [|discriminate].
  apply bind_Ok_inv in H8 as (mtext & w9 & H9 & H8).
  apply open_read_Ok_inv in H9 as (m' & [= <-] & Hmfile & Hw9).
  apply bind_Ok_inv in H8 as ([hd records] & w10 & H10 & H8).
  apply lift_Ok_inv in H10 as [Hparse ->].
  injection H8 as <- <-. cbn [header pending fst snd] in Hrun.
  apply bind_Ok_inv in Hrun as (acc & w11 & Hloop & Hrun).
  assert (Hrec : records = []).
  { destruct records as [|r rs]; [reflexivity|]. exfalso.
    destruct (loop_raises bounds hd 0 (r :: rs) (Z.to_nat z) [] w9)
      as (e & wl & Hl & _); [lia|discriminate|].
    congruence. }
  subst records.
  pose proof (quiet_loop bounds hd (reader_chunks (Z.to_nat z) []) 0 [] w9)
    as (evs & Hfl & _).
  rewrite Hloop in Hfl. simpl in Hfl.
  apply bind_Ok_inv in Hrun as (res & w12 & H12 & Hrun).
  apply lift_Ok_inv in H12 as [_ ->].
  apply bind_Ok_inv in Hrun as (u3 & w13 & H13 & Hrun). apply emit_inv in H13.
  apply bind_Ok_inv in Hrun as (opath & w14 & H14 & Hrun).
  apply lift_Ok_inv in H14 as [Hout ->].
  destruct opath as [o|zz]; [|discriminate].
  simpl in Hrun. unfold write_file in Hrun. injection Hrun as <-.
  exists p, text, bounds, m, mtext, hd, z, o, (to_csv_text res false).
  subst. simpl in *.
  repeat split; try assumption.
  now rewrite Hfl.
Qed.

End Body.

Lemma string_chunksize_ends_at_read_csv_witness :
  let args := [("wkt_boundary_file", AStr "boundary.wkt");
               ("mep_matrix_file", AStr "matrix.csv");
               ("output_file", AStr "out.csv");
               ("chunksize", AStr "1")] in
  let w := Scenario.disk Scenario.square_wkt Scenario.matrix_csv in
  @run_body Scenario.libraries args w =
    (Raise (ValueError "'chunksize' must be an integer >=1"),
     {| files := files w;
        trace := trace w ++ [PrintBanner; PrintArgs args; OpenRead "boundary.wkt"] |}).
Proof.
  intros args w.
  apply (@string_chunksize_ends_at_read_csv Scenario.libraries args w
           "boundary.wkt" Scenario.square_wkt "1"
           {| Scenario.xmin := 0; Scenario.ymin := 0;
              Scenario.xmax := 10; Scenario.ymax := 10 |}
           (AStr "matrix.csv"))
  ; vm_compute; reflexivity.
Defined.

Lemma missing_input_file_witness :
  let w := {| files := {[ "boundary.wkt" := Scenario.square_wkt ]}; trace := [] |} in
  @run_body Scenario.libraries (Scenario.namespace 1) w =
    (Raise (FileNotFoundError "matrix.csv"),
     {| files := files w;
        trace := trace w ++ [PrintBanner; PrintArgs (Scenario.namespace 1);
                             OpenRead "boundary.wkt"; OpenRead "matrix.csv"] |}).
Proof.
  intros w.
  apply (proj2 (@missing_input_file Scenario.libraries (Scenario.namespace 1) w
                  "boundary.wkt" eq_refl)
           Scenario.square_wkt
           {| Scenario.xmin := 0; Scenario.ymin := 0;
              Scenario.xmax := 10; Scenario.ymax := 10 |}
           "matrix.csv" 1)
  ; try (vm_compute; reflexivity).
  lia.
Defined.

Lemma missing_grid_id_column_witness :
  let bounds := {| Scenario.xmin := 0; Scenario.ymin := 0;
                   Scenario.xmax := 10; Scenario.ymax := 10 |} in
  let w := Scenario.disk Scenario.square_wkt Scenario.matrix_csv in
  @loop Scenario.libraries bounds ["cell"; "pop"] 0 [[]] [] w =
    (Raise (AttributeError "DataFrame" "grid_id"),
     {| files := files w; trace := trace w ++ [ReadChunk 0] |}).
Proof.
  intros bounds w.
  apply (@missing_grid_id_column Scenario.libraries bounds ["cell"; "pop"] 0
           [] [] [] w []).
  - reflexivity.
  - intros [H|[H|[]]]; discriminate H.
Defined.

Lemma body_returns_only_without_records_witness :
  let w := Scenario.disk Scenario.square_wkt Scenario.header_only_csv in
  exists mtext hd o out,
    files w !! "matrix.csv" = Some mtext /\
    Scenario.parse mtext = Ok (hd, []) /\
    files (snd (@run_body Scenario.libraries (Scenario.namespace 1) w))
      = <[o := out]> (files w).
Proof.
  intros w.
  destruct (@body_returns_only_without_records Scenario.libraries
              (Scenario.namespace 1) w
              (snd (@run_body Scenario.libraries (Scenario.namespace 1) w)))
    as (p & text & bounds & m & mtext & hd & z & o & out
        & _ & _ & _ & Hm & Hmfile & _ & _ & Hparse & _ & Hfiles).
  - vm_compute. reflexivity.
  - injection Hm as <-. now exists mtext, hd, o, out.
Defined.

(** ** The GeoJSON of a polygon *)

Lemma map_swap_swap (l : list coordinate) :
  map swap_latlng (map swap_latlng l) = l.
Proof.
  rewrite map_map. rewrite <- (map_id l) at 2.
  apply map_ext. now intros [x y].
Qed.

Section GeoJSONs.
Context `{L : Libraries}.

Lemma polygon_to_h3_geojson_closed (ring : list coordinate) :
  (4 <= length ring)%nat ->
  close_ring ring = ring ->
  polygon_to_h3_geojson {| exterior := ring |}
  = Ok {| type := "Polygon"; coordinates := [map swap_latlng ring] |}.
Proof.
  intros Hlen Hclosed.
  assert (Ht : transform swap_latlng {| exterior := ring |}
               = Ok {| exterior := map swap_latlng ring |}).
  { unfold transform. cbn [exterior].
    destruct ring as [|c r] eqn:E; [simpl in Hlen; lia|].
    pose proof (close_ring_fixed c r Hclosed) as Hends.
    assert (Hsw : close_ring (map swap_latlng (c :: r)) = map swap_latlng (c :: r))
      by now rewrite close_ring_swap, Hclosed.
    cbn [map] in *.
    rewrite Polygon_new_closed.
    - now rewrite Hsw.
    - simpl. rewrite length_map. simpl in Hlen. lia.
    - rewrite Hsw.
      change (swap_latlng c :: map swap_latlng r) with (map swap_latlng (c :: r)).
      now rewrite last_map_swap, coord_eqb_swap. }
  unfold polygon_to_h3_geojson.
  change (transform _ {| exterior := ring |})
    with (transform swap_latlng {| exterior := ring |}).
  now rewrite Ht.
Qed.

(** X9.  For a polygon whose exterior ring is closed and has four
    coordinates or more, [polygon_to_h3_geojson] gives a dictionary of
    type ["Polygon"] with one ring: the exterior, every pair with its
    two numbers exchanged, in the same order.  Done twice it gives the
    exterior back. *)
Theorem polygon_to_h3_geojson_flips (polygon : Polygon)
    (Hlen : (4 <= length (exterior polygon))%nat)
    (Hclosed : close_ring (exterior polygon) = exterior polygon) :
  polygon_to_h3_geojson polygon =
    Ok {| type := "Polygon";
          coordinates := [map swap_latlng (exterior polygon)] |} /\
  polygon_to_h3_geojson {| exterior := map swap_latlng (exterior polygon) |} =
    Ok {| type := "Polygon"; coordinates := [exterior polygon] |}.
Proof.
  destruct polygon as [ring]. simpl in *. split.
  - now apply polygon_to_h3_geojson_closed.
  - rewrite polygon_to_h3_geojson_closed.
    + now rewrite map_swap_swap.
    + now rewrite length_map.
    + now rewrite close_ring_swap, Hclosed.
Qed.

(** X10.  The polygon [polygon_for_hex_id] builds for a hex cell goes
    back through [polygon_to_h3_geojson] to one ring: the vertices h3
    gave for the cell, in h3's (lat, lng) order, closed (nothing added
    when the ends of h3's list compare equal, the first vertex repeated
    when they do not). *)
Theorem hex_polygon_geojson_round_trip
    (hex_id : pyval) (vs : list coordinate)
    (Hgeo : h3_to_geo_boundary hex_id = Ok vs)
    (Hlen : (4 <= length vs)%nat)
    (Hnum : Forall (fun v => coord_eqb v v = true) vs) :
  exists polygon ring,
    polygon_for_hex_id hex_id = Ok polygon /\
    polygon_to_h3_geojson polygon =
      Ok {| type := "Polygon"; coordinates := [ring] |} /\
    closes vs ring /\
    take (length vs) ring = vs.
Proof.
  exists {| exterior := close_ring (map swap_latlng vs) |}, (close_ring vs).
  split; [now apply polygon_for_hex_id_ok|].
  destruct vs as [|v vs']; [simpl in Hlen; lia|].
  assert (Hv : coord_eqb v v = true) by now inversion Hnum.
  pose proof (close_ring_length (v :: vs')) as Hc.
  split; [|split].
  - rewrite close_ring_swap, polygon_to_h3_geojson_closed.
    + now rewrite map_swap_swap.
    + rewrite length_map. lia.
    + rewrite close_ring_swap, close_ring_idem; [reflexivity|].
      now intros p [= <-].
  - now apply closes_close_ring.
  - apply close_ring_take.
Qed.

End GeoJSONs.

Lemma polygon_to_h3_geojson_flips_witness :
  let ring := close_ring (map swap_latlng Scenario.H1) in
  @polygon_to_h3_geojson Scenario.libraries {| exterior := ring |} =
    Ok {| type := "Polygon"; coordinates := [map swap_latlng ring] |}.
Proof.
  intros ring.
  apply (@polygon_to_h3_geojson_flips Scenario.libraries {| exterior := ring |}).
  - vm_compute. lia.
  - vm_compute. reflexivity.
Defined.

Lemma hex_polygon_geojson_round_trip_witness :
  exists polygon ring,
    @polygon_for_hex_id Scenario.libraries (VStr "H1") = Ok polygon /\
    @polygon_to_h3_geojson Scenario.libraries polygon =
      Ok {| type := "Polygon"; coordinates := [ring] |} /\
    closes Scenario.H1 ring /\
    take (length Scenario.H1) ring = Scenario.H1.
Proof.
  apply (@hex_polygon_geojson_round_trip Scenario.libraries (VStr "H1") Scenario.H1).
  - reflexivity.
  - simpl. lia.
  - repeat (constructor; [vm_compute; reflexivity|]). constructor.
Defined.

(** * Runs compared *)

(** ** Computations started on the same files *)


Lemma sim_weaken {A : Type} (R R' : A -> A -> Prop) (E E' : exn -> exn -> Prop)
    (m1 m2 : M A) :
  (forall a b, R a b -> R' a b) ->
  (forall e f, E e f -> E' e f) ->
  sim R E m1 m2 -> sim R' E' m1 m2.
Proof.
  intros HR HE H w1 w2 Hf. destruct (H w1 w2 Hf) as [Ho Hfiles].
  split; [|assumption].
  destruct (fst (m1 w1)), (fst (m2 w2)); simpl in *; auto.
Qed.







Section Compared.
Context `{L : Libraries}.








(** C8.  The frame the loop keeps of a chunk never holds a retained
    row: the body of the loop returns for a chunk without rows only, and
    what it returns then is what pandas selects from the frame for an
    empty key of labels, not a selection of rows by a mask.  So no row
    passes its columns to the output, and the columns of the output are
    not those of line 38's frame. *)
Theorem process_chunk_returns_only_without_rows
    (bounds : geometry) (df kept : DataFrame)
    (Hkept : process_chunk bounds df = Ok kept) :
  lookup_column "grid_id" (df_columns df) = Some [] /\
  getitem_labels (setitem df "geometry" [])
                 {| s_index := df_index df; s_values := [] |} = Ok kept.
Proof.
  destruct (lookup_column "grid_id" (df_columns df)) as [ids|] eqn:Hids.
  - destruct ids as [|h ids].
    + split; [reflexivity|].
      revert Hkept. unfold process_chunk.
      rewrite (assign_geometry_ok df [] [] Hids eq_refl). simpl.
      unfold select_in_bounds, DataFrame_getattr. simpl.
      now rewrite lookup_set_column_same.
    + destruct (process_chunk_raises bounds df) as [e He].
      * intros ids' Hids'. congruence.
      * congruence.
  - destruct (process_chunk_raises bounds df) as [e He]; [|congruence].
    intros ids' Hids'. congruence.
Qed.

End Compared.



Lemma process_chunk_returns_only_without_rows_witness :
  let bounds := {| Scenario.xmin := 0; Scenario.ymin := 0;
                   Scenario.xmax := 10; Scenario.ymax := 10 |} in
  let df := frame_of ["grid_id"; "pop"] 0 [] in
  let kept := {| df_index := []; df_columns := [] |} in
  @process_chunk Scenario.libraries bounds df = Ok kept /\
  lookup_column "grid_id" (df_columns df) = Some [] /\
  column_names kept = [].
Proof.
  intros bounds df kept.
  assert (Hkept : @process_chunk Scenario.libraries bounds df = Ok kept)
    by (vm_compute; reflexivity).
  destruct (@process_chunk_returns_only_without_rows Scenario.libraries
              bounds df kept Hkept) as [Hids _].
  split; [exact Hkept|]. split; [exact Hids|reflexivity].
Defined.

(** The one run that writes: the matrix of a header alone, read through
    a namespace that has the attributes the body asks for.  The file
    written is an empty line; it holds neither the columns of the matrix
    nor a column [geometry].  The matrix of two rows and the command
    line write no file. *)
Example header_only_body_writes_an_empty_line :
  let w := Scenario.disk Scenario.square_wkt Scenario.header_only_csv in
  files (snd (@run_body Scenario.libraries (Scenario.namespace 1) w)) !! "out.csv"
    = Some Scenario.nl /\
  files (snd (@run_body Scenario.libraries (Scenario.namespace 1)
                (Scenario.disk Scenario.square_wkt Scenario.matrix_csv)))
        !! "out.csv" = None /\
  files (snd (@run Scenario.libraries (Scenario.argv4 "1") w)) !! "out.csv" = None.
Proof. vm_compute. repeat split. Qed.
